(** * Passport photo editor: a shallow embedding of [app.py]

    The development follows the layout of the program: configuration
    constants, the landmark helpers, the pixel/millimetre converters, the
    photo normaliser [process_photo], the measurement overlay, the soft
    warning checks and the 4x6 sheet compositor.

    Python values are modelled as the program has them:
    - [int] is [Z];
    - [float] is IEEE-754 binary64, taken from the Standard Library's
      executable specification [SpecFloat] (precision 53, [emax] 1024,
      round to nearest even), so every float the program computes can be
      evaluated bit for bit;
    - raising is an explicit result type;
    - PIL images are mutable objects: they live in a store, and functions
      that draw on them are store transformers. *)

From Stdlib Require Import ZArith List Lia Bool SpecFloat.
From stdpp Require Import gmap strings.

Local Open Scope Z_scope.

(** ** Exceptions and the result monad *)

Inductive exn : Set :=
| ZeroDivisionError
| OverflowError
| ValueError
| IndexError
| Cv2Error
| ReferenceError.

Inductive result (A : Type) : Type :=
| Ok (a : A)
| Raise (e : exn).
Arguments Ok {A} a.
Arguments Raise {A} e.

#[global] Instance result_ret : MRet result := fun A a => Ok a.
#[global] Instance result_bind : MBind result := fun A B f m =>
  match m with
  | Ok a => f a
  | Raise e => Raise e
  end.

Definition raises {A} (r : result A) : Prop := exists e, r = Raise e.

(** ** Python floats (binary64) *)

Module Float64.

Definition prec : Z := 53.
Definition emax : Z := 1024.

Definition float : Set := spec_float.

Definition add : float -> float -> float := SFadd prec emax.
Definition sub : float -> float -> float := SFsub prec emax.
Definition mul : float -> float -> float := SFmul prec emax.

Definition is_zero (f : float) : bool :=
  match f with S754_zero _ => true | _ => false end.

Definition is_infinity (f : float) : bool :=
  match f with S754_infinity _ => true | _ => false end.

(** [float(z)]: nearest double, ties to even; too large an [int] raises. *)
Definition of_int (z : Z) : result float :=
  let f := binary_normalize prec emax z 0 false in
  if is_infinity f then Raise OverflowError else Ok f.

(** [x / y] on floats: a zero divisor raises. *)
Definition truediv (x y : float) : result float :=
  if is_zero y then Raise ZeroDivisionError else Ok (SFdiv prec emax x y).

(** [a / b] on ints: the correctly rounded quotient of the two integers. *)
Definition int_truediv (a b : Z) : result float :=
  if b =? 0 then Raise ZeroDivisionError
  else
    let s := xorb (a <? 0) (b <? 0) in
    match a with
    | Z0 => Ok (S754_zero s)
    | _ =>
        let q := SFdiv prec emax
                   (S754_finite (a <? 0) (Z.to_pos (Z.abs a)) 0)
                   (S754_finite (b <? 0) (Z.to_pos (Z.abs b)) 0) in
        if is_infinity q then Raise OverflowError else Ok q
    end.

(** Magnitude of [m * 2^e] cut towards zero. *)
Definition trunc_mag (m : positive) (e : Z) : Z :=
  match e with
  | Zneg k => Z.shiftr (Zpos m) (Zpos k)
  | _ => Z.shiftl (Zpos m) e
  end.

(** Magnitude of [m * 2^e] rounded to the nearest integer, ties to even. *)
Definition round_mag (m : positive) (e : Z) : Z :=
  match e with
  | Zneg k =>
      let d := 2 ^ Zpos k in
      let q := Zpos m / d in
      let r := Zpos m mod d in
      match 2 * r ?= d with
      | Lt => q
      | Gt => q + 1
      | Eq => if Z.even q then q else q + 1
      end
  | _ => Z.shiftl (Zpos m) e
  end.

Definition to_int_with (mag : positive -> Z -> Z) (f : float) : result Z :=
  match f with
  | S754_zero _ => Ok 0
  | S754_nan => Raise ValueError
  | S754_infinity _ => Raise OverflowError
  | S754_finite s m e => Ok (cond_Zopp s (mag m e))
  end.

(** [int(f)] *)
Definition py_int : float -> result Z := to_int_with trunc_mag.

(** [round(f)] with one argument *)
Definition py_round : float -> result Z := to_int_with round_mag.

(** The sign bit; [None] for a NaN. *)
Definition signbit (f : float) : option bool :=
  match f with
  | S754_zero s | S754_infinity s | S754_finite s _ _ => Some s
  | S754_nan => None
  end.

(** the double a decimal literal [n / d] denotes, such as [0.1] for
    [literal 1 10]: the one nearest to the quotient *)
Definition literal (n d : Z) : float :=
  match int_truediv n d with
  | Ok f => f
  | Raise _ => S754_nan
  end.

End Float64.

Import Float64.

(** A Python number as the converters receive it: they are called both
    with [int] literals and with the [float] another converter returned. *)
Inductive pynum : Set :=
| PyInt (z : Z)
| PyFloat (f : float).

Definition num_truediv_int (a : pynum) (b : Z) : result float :=
  match a with
  | PyInt z => int_truediv z b
  | PyFloat f => d ← of_int b; truediv f d
  end.

Definition mul_int (f : float) (z : Z) : result float :=
  d ← of_int z; mret (mul f d).

Definition int_mul (z : Z) (f : float) : result float :=
  d ← of_int z; mret (mul d f).

Definition sub_int (f : float) (z : Z) : result float :=
  d ← of_int z; mret (sub f d).

(** ** Configuration *)

Definition OUTPUT_SIZE_PX : Z := 600.
Definition DPI : Z := 300.
Definition HEAD_MIN_MM : Z := 25.
Definition HEAD_MAX_MM : Z := 35.
Definition EYE_MIN_MM : Z := 28.
Definition EYE_MAX_MM : Z := 34.

(** ** Conversion between px and mm *)

Definition px_to_mm (px : Z) : result float :=
  q ← int_truediv px OUTPUT_SIZE_PX;
  mul_int q 51.

Definition mm_to_px (mm : pynum) : result Z :=
  q ← num_truediv_int mm 51;
  p ← mul_int q OUTPUT_SIZE_PX;
  py_round p.

(** [mm_to_px(px_to_mm(px))] *)
Definition round_trip (px : Z) : result Z :=
  mm ← px_to_mm px;
  mm_to_px (PyFloat mm).

Definition round_trip_within_one (px : Z) : bool :=
  match round_trip px with
  | Ok r => Z.abs (r - px) <=? 1
  | Raise _ => false
  end.

(** ** Face landmark helpers *)

Module Landmark.
Record t : Set := mk { x : float; y : float }.
End Landmark.

Definition landmark_list := list Landmark.t.

(** [landmarks[i]] for a non-negative literal index *)
Definition item (landmarks : landmark_list) (i : nat) : result Landmark.t :=
  match landmarks !! i with
  | Some l => Ok l
  | None => Raise IndexError
  end.

Record geometry : Set := mkGeometry {
  g_top : Z;
  g_chin : Z;
  g_eye_avg_y : Z;
  g_center_x : Z;
  g_center_y : Z
}.

Definition get_head_and_eye_positions
    (landmarks : landmark_list) (img_w img_h : Z) : result geometry :=
  l10 ← item landmarks 10;
  t ← mul_int (Landmark.y l10) img_h;
  top ← py_int t;
  l152 ← item landmarks 152;
  c ← mul_int (Landmark.y l152) img_h;
  chin ← py_int c;
  left_eye ← item landmarks 33;
  right_eye ← item landmarks 263;
  ey ← num_truediv_int (PyFloat (add (Landmark.y left_eye) (Landmark.y right_eye))) 2;
  ey ← mul_int ey img_h;
  eye_avg_y ← py_int ey;
  ex ← num_truediv_int (PyFloat (add (Landmark.x left_eye) (Landmark.x right_eye))) 2;
  ex ← mul_int ex img_w;
  center_x ← py_int ex;
  m ← int_truediv (top + chin) 2;
  center_y ← py_int m;
  mret (mkGeometry top chin eye_avg_y center_x center_y).

(** ** Raster images

    A numpy array of shape [(height, width, 3)] and a PIL image in mode RGB
    are both a grid of pixels; [pixel a x y] is column [x] of row [y].
    Only the values inside the bounds are meaningful. *)

Record rgb : Set := mkRGB { red : Z; green : Z; blue : Z }.

Definition WHITE : rgb := mkRGB 255 255 255.
Definition BLACK : rgb := mkRGB 0 0 0.
Definition RED : rgb := mkRGB 255 0 0.
Definition BLUE : rgb := mkRGB 0 0 255.

Record raster (P : Type) : Type := mkRaster {
  height : nat;
  width : nat;
  pixel : Z -> Z -> P
}.
Arguments mkRaster {P} height width pixel.
Arguments height {P} r.
Arguments width {P} r.
Arguments pixel {P} r x y.

Definition rgb_image : Type := raster rgb.

Definition inside {P} (a : raster P) (x y : Z) : bool :=
  (0 <=? x) && (x <? Z.of_nat (width a)) && (0 <=? y) && (y <? Z.of_nat (height a)).

Definition solid (w h : nat) (color : rgb) : rgb_image :=
  mkRaster h w (fun _ _ => color).

(** [Image.new("RGB", (w, h), color)]: a negative side is refused. *)
Definition Image_new (w h : Z) (color : rgb) : result rgb_image :=
  if (w <? 0) || (h <? 0) then Raise ValueError
  else Ok (solid (Z.to_nat w) (Z.to_nat h) color).

(** [dst.paste(src, (x0, y0))]: [src] lands with its top-left corner at
    [(x0, y0)]; what falls outside [dst] is dropped. *)
Definition paste (dst src : rgb_image) (pos : Z * Z) : rgb_image :=
  mkRaster (height dst) (width dst)
    (fun x y =>
       if inside src (x - fst pos) (y - snd pos)
       then pixel src (x - fst pos) (y - snd pos)
       else pixel dst x y).

(** A slice bound of Python on an axis of length [n]: negative bounds
    count from the end, and every bound is cut to [0..n]. *)
Definition slice_bound (n : nat) (i : Z) : Z :=
  if i <? 0 then Z.max 0 (i + Z.of_nat n) else Z.min i (Z.of_nat n).

(** [a[r0:r1, c0:c1]] *)
Definition slice2 {P} (a : raster P) (r0 r1 c0 c1 : Z) : raster P :=
  let rs := slice_bound (height a) r0 in
  let re := slice_bound (height a) r1 in
  let cs := slice_bound (width a) c0 in
  let ce := slice_bound (width a) c1 in
  mkRaster (Z.to_nat (re - rs)) (Z.to_nat (ce - cs))
    (fun x y => pixel a (cs + x) (rs + y)).

(** [a[r0:, :]] *)
Definition rows_from {P} (a : raster P) (r0 : Z) : raster P :=
  let rs := slice_bound (height a) r0 in
  mkRaster (Z.to_nat (Z.of_nat (height a) - rs)) (width a)
    (fun x y => pixel a x (rs + y)).

(** ** PIL image objects

    A PIL image is a mutable object, and [ImageDraw] draws on the object it
    was given. Objects live in a store; a program that touches them is a
    store transformer that may raise, and what it drew before raising
    stays drawn. *)

Definition loc : Set := positive.

Definition io (A : Type) : Type :=
  gmap loc rgb_image -> result A * gmap loc rgb_image.

#[global] Instance io_ret : MRet io := fun A a σ => (Ok a, σ).
#[global] Instance io_bind : MBind io := fun A B f m σ =>
  match m σ with
  | (Ok a, σ') => f a σ'
  | (Raise e, σ') => (Raise e, σ')
  end.

Definition lift {A} (r : result A) : io A := fun σ => (r, σ).

Definition load (r : loc) : io rgb_image := fun σ =>
  match σ !! r with
  | Some im => (Ok im, σ)
  | None => (Raise ReferenceError, σ)
  end.

(** an in-place update of the object at [r] *)
Definition modify (r : loc) (f : rgb_image -> rgb_image) : io unit := fun σ =>
  match σ !! r with
  | Some im => (Ok tt, <[r := f im]> σ)
  | None => (Raise ReferenceError, σ)
  end.

(** a new object *)
Definition alloc (im : rgb_image) : io loc := fun σ =>
  let r := fresh (dom σ) in (Ok r, <[r := im]> σ).

(** [m] changes no object but the one at [r]. *)
Definition touches_only {A} (r : loc) (m : io A) : Prop :=
  forall σ l, l <> r -> snd (m σ) !! l = σ !! l.

(** Whenever [m] returns, it returns [v]. *)
Definition returns {A} (v : A) (m : io A) : Prop :=
  forall σ a, fst (m σ) = Ok a -> a = v.

(** [draw.line([(x0, y), (x1, y)], fill=fill, width=w)], the only shape of
    line the program draws: the stroke of a horizontal segment covers the
    columns between the end points, both included, and [w] rows of which
    the first is [y - (w - 1) // 2]: rows [y] and [y + 1] for the width 2
    of the program. *)
Definition ImageDraw_hline (im : rgb_image) (x0 x1 y : Z) (fill : rgb) (w : Z) : rgb_image :=
  mkRaster (height im) (width im)
    (fun px py =>
       if (Z.min x0 x1 <=? px) && (px <=? Z.max x0 x1)
          && (y - (w - 1) / 2 <=? py) && (py <=? y + w / 2)
       then fill else pixel im px py).

(** ** Grey statistics

    [np.mean] of an array of bytes adds the values up in doubles and
    divides by their number. Every partial sum is an integer far below
    [2^53], so the sum is exact in whatever order numpy adds, and the mean
    is the double nearest to the quotient; of an empty array it is NaN. *)

Definition raster_sum (a : raster Z) : Z :=
  fold_right
    (fun y acc =>
       fold_right (fun x acc => pixel a (Z.of_nat x) (Z.of_nat y) + acc)
                  acc (seq 0 (width a)))
    0 (seq 0 (height a)).

Definition np_size (a : raster Z) : Z :=
  Z.of_nat (height a) * Z.of_nat (width a).

Definition np_mean (a : raster Z) : float :=
  match int_truediv (raster_sum a) (np_size a) with
  | Ok m => m
  | Raise _ => S754_nan
  end.

(** [f > z] for a float and an [int] literal; false on a NaN *)
Definition gt_int (f : float) (z : Z) : bool :=
  match of_int z with
  | Ok d => SFltb d f
  | Raise _ => false
  end.

(** The value of [f] lies above the integer [z]: [f] is plus infinity, or
    a zero or a finite double [(-1)^s * m * 2^e] whose value, as a rational
    number, is greater than [z]. A NaN lies above nothing. *)
Definition exceeds (f : float) (z : Z) : Prop :=
  match f with
  | S754_nan => False
  | S754_infinity s => s = false
  | S754_zero _ => z < 0
  | S754_finite s m e =>
      let v := cond_Zopp s (Zpos m) in
      if e <? 0 then z * 2 ^ (- e) < v else z < v * 2 ^ e
  end.

(** ** The libraries behind the program

    What the program takes from MediaPipe, OpenCV and Pillow without the
    repository fixing it: the face mesh model, the interpolation kernels,
    the grey conversion, the default font and float formatting. The image
    shapes these calls produce are fixed by the definitions below, only
    the pixel values are left to the library. *)

Class Libraries : Type := {
  (** an uploaded picture as [Image.open] decoded it, in any mode *)
  Picture : Type;
  (** [convert("RGBA")], [alpha_composite] over white, [convert("RGB")], [np.array] *)
  composite_on_white : Picture -> rgb_image;
  (** [face_mesh.process(image_np).multi_face_landmarks] *)
  face_mesh_process : rgb_image -> option (list landmark_list);
  (** value of pixel [(x, y)] of [cv2.resize(src, (w, h), INTER_CUBIC)] *)
  INTER_CUBIC : rgb_image -> Z -> Z -> Z -> Z -> rgb;
  (** value of pixel [(x, y)] of [src.resize((w, h))] when the size changes *)
  resample : rgb_image -> Z -> Z -> Z -> Z -> rgb;
  (** [cv2.COLOR_RGB2GRAY] on one pixel *)
  COLOR_RGB2GRAY : rgb -> Z;
  (** does the default font paint offset [(dx, dy)] when it draws the text *)
  default_font_mask : string -> Z -> Z -> bool;
  (** [f"{v:.1f}"] *)
  format_1f : float -> string;
  (** [np.std] of a grey image: the order in which numpy adds the squared
      deviations decides the last bits *)
  np_std : raster Z -> float
}.

Section App.
Context `{Libraries}.

Definition detect_face_landmarks (image_np : rgb_image) : option landmark_list :=
  match face_mesh_process image_np with
  | None => None
  | Some [] => None
  | Some (face :: _) => Some face
  end.

(** [not landmarks] *)
Definition falsy (landmarks : option landmark_list) : bool :=
  match landmarks with
  | None => true
  | Some [] => true
  | Some (_ :: _) => false
  end.

(** [cv2.resize(src, (new_w, new_h), interpolation=cv2.INTER_CUBIC)]:
    an empty source or an empty target size fails an assertion of OpenCV. *)
Definition cv2_resize (src : rgb_image) (new_w new_h : Z) : result rgb_image :=
  if (Nat.eqb (height src) 0) || (Nat.eqb (width src) 0)
     || (new_w <=? 0) || (new_h <=? 0)
  then Raise Cv2Error
  else Ok (mkRaster (Z.to_nat new_h) (Z.to_nat new_w) (INTER_CUBIC src new_w new_h)).

(** ** Main photo processing *)

Definition NO_FACE_MESSAGE : string :=
  "No face detected. Please use a clear, front-facing passport-style photo!".

(** [max(0, min(crop, new - OUTPUT_SIZE_PX))] *)
Definition clamp_crop (crop new : Z) : Z :=
  Z.max 0 (Z.min crop (new - OUTPUT_SIZE_PX)).

(** [pad_img = white; pad_img[:rows, :cols, :] = cropped] *)
Definition pad_white (cropped : rgb_image) : rgb_image :=
  mkRaster (Z.to_nat OUTPUT_SIZE_PX) (Z.to_nat OUTPUT_SIZE_PX)
    (fun x y =>
       if inside cropped x y then pixel cropped x y else WHITE).

(** From the clamping to the returned image. *)
Definition crop_to_output (scaled : rgb_image) (new_w new_h crop_top crop_left : Z) : rgb_image :=
  let crop_top := clamp_crop crop_top new_h in
  let crop_left := clamp_crop crop_left new_w in
  let cropped :=
    slice2 scaled crop_top (crop_top + OUTPUT_SIZE_PX)
                  crop_left (crop_left + OUTPUT_SIZE_PX) in
  let cropped :=
    if (Z.of_nat (height cropped) <? OUTPUT_SIZE_PX)
       || (Z.of_nat (width cropped) <? OUTPUT_SIZE_PX)
    then pad_white cropped else cropped in
  let final_img :=
    solid (Z.to_nat OUTPUT_SIZE_PX) (Z.to_nat OUTPUT_SIZE_PX) WHITE in
  paste final_img cropped (0, 0).

Definition process_photo (picture : Picture) : result (option rgb_image * string) :=
  let image_np := composite_on_white picture in
  let img_h := Z.of_nat (height image_np) in
  let img_w := Z.of_nat (width image_np) in
  match detect_face_landmarks image_np with
  | None => Ok (None, NO_FACE_MESSAGE)
  | Some [] => Ok (None, NO_FACE_MESSAGE)
  | Some ((_ :: _) as landmarks) =>
      g ← get_head_and_eye_positions landmarks img_w img_h;
      let head_px := g_chin g - g_top g in
      head_mm ← px_to_mm head_px;
      let target_head_mm := 26 in
      target_head_px ← mm_to_px (PyInt target_head_mm);
      scale ← int_truediv target_head_px head_px;
      w ← int_mul img_w scale;
      new_w ← py_int w;
      h ← int_mul img_h scale;
      new_h ← py_int h;
      scaled ← cv2_resize image_np new_w new_h;
      eye_y_scaled ← int_mul (g_eye_avg_y g) scale;
      cx_scaled ← int_mul (g_center_x g) scale;
      m ← mm_to_px (PyInt ((EYE_MIN_MM + EYE_MAX_MM) / 2));
      let desired_eye_y := OUTPUT_SIZE_PX - m in
      t ← sub_int eye_y_scaled desired_eye_y;
      crop_top ← py_int t;
      l ← sub_int cx_scaled (OUTPUT_SIZE_PX / 2);
      crop_left ← py_int l;
      mret (Some (crop_to_output scaled new_w new_h crop_top crop_left), "")
  end.

(** ** Measurement overlay *)

(** [draw.text(pos, text, fill=fill, font=font)] *)
Definition ImageDraw_text (im : rgb_image) (pos : Z * Z) (text : string) (fill : rgb) : rgb_image :=
  mkRaster (height im) (width im)
    (fun px py =>
       if default_font_mask text (px - fst pos) (py - snd pos)
       then fill else pixel im px py).

(** [int(landmarks[i].y * img_h)] *)
Definition landmark_row (landmarks : landmark_list) (i : nat) (img_h : Z) : result Z :=
  l ← item landmarks i;
  t ← mul_int (Landmark.y l) img_h;
  py_int t.

Definition add_measurement_overlay
    (image : loc) (landmarks : landmark_list) (img_h img_w : Z) : io loc :=
  top ← lift (landmark_row landmarks 10 img_h);
  chin ← lift (landmark_row landmarks 152 img_h);
  _ ← modify image (fun im =>
        ImageDraw_hline im (img_w / 2 - 60) (img_w / 2 + 60) top RED 2);
  _ ← modify image (fun im =>
        ImageDraw_hline im (img_w / 2 - 60) (img_w / 2 + 60) chin RED 2);
  head_h_mm ← lift (px_to_mm (chin - top));
  _ ← modify image (fun im =>
        ImageDraw_text im (img_w / 2 + 65, (top + chin) / 2)
          ("Head: " +:+ format_1f head_h_mm +:+ "mm") RED);
  left_eye ← lift (landmark_row landmarks 33 img_h);
  right_eye ← lift (landmark_row landmarks 263 img_h);
  let eye_y := (left_eye + right_eye) / 2 in
  _ ← modify image (fun im => ImageDraw_hline im 0 img_w eye_y BLUE 2);
  eye_from_bottom_mm ← lift (px_to_mm (img_h - eye_y));
  _ ← modify image (fun im =>
        ImageDraw_text im (img_w - 120, eye_y + 5)
          ("Eye from bottom: " +:+ format_1f eye_from_bottom_mm +:+ "mm") BLUE);
  mret image.

(** The preview of the page: the processed image is copied, and the copy
    is what the overlay receives. *)
Definition preview_block (processed_img : loc) : io loc :=
  np_img ← load processed_img;
  let img_h := Z.of_nat (height np_img) in
  let img_w := Z.of_nat (width np_img) in
  let landmarks := detect_face_landmarks np_img in
  preview_img ← alloc np_img;
  match landmarks with
  | Some ((_ :: _) as landmarks) =>
      add_measurement_overlay preview_img landmarks img_h img_w
  | _ => mret preview_img
  end.

(** ** Soft warning checks *)

Definition ATTIRE_WARNING : string :=
  "Attire may be too white (bottom of image is very light).".
Definition CONTRAST_WARNING : string :=
  "High contrast: There may be distracting shadows or lighting.".

(** the grey image: every pixel converted, the shape kept *)
Definition cvtColor (np_img : rgb_image) : raster Z :=
  mkRaster (height np_img) (width np_img)
    (fun x y => COLOR_RGB2GRAY (pixel np_img x y)).

(** [cv2.cvtColor(src, cv2.COLOR_RGB2GRAY)]: an empty source is refused. *)
Definition cv2_cvtColor (src : rgb_image) : result (raster Z) :=
  if (Nat.eqb (height src) 0) || (Nat.eqb (width src) 0) then Raise Cv2Error
  else Ok (cvtColor src).

Definition check_warnings (pil_img : loc) : io (list string) :=
  np_img ← load pil_img;
  gray ← lift (cv2_cvtColor np_img);
  let warnings := [] in
  let bottom_roi := rows_from gray (-80) in
  let warnings :=
    if gt_int (np_mean bottom_roi) 220 then warnings ++ [ATTIRE_WARNING] else warnings in
  let warnings :=
    if gt_int (np_std gray) 60 then warnings ++ [CONTRAST_WARNING] else warnings in
  mret warnings.

(** ** 4x6 image creation *)

(** [image.resize((w, h))]: an image that has the size already is copied. *)
Definition Image_resize (im : rgb_image) (w h : Z) : rgb_image :=
  if (Z.of_nat (width im) =? w) && (Z.of_nat (height im) =? h) then im
  else mkRaster (Z.to_nat h) (Z.to_nat w) (resample im w h).

Definition positions : list (Z * Z) :=
  [ (0, 0); (600, 0);
    (0, 600); (600, 600);
    (0, 1200); (600, 1200) ].

(** The tile that is pasted: the image, inside a black frame when asked. *)
Definition tile (image : rgb_image) (add_border : bool) (border_thickness : Z) : result rgb_image :=
  let image := Image_resize image 600 600 in
  if add_border then
    bordered_image ←
      Image_new (600 + 2 * border_thickness) (600 + 2 * border_thickness) BLACK;
    mret (paste bordered_image image (border_thickness, border_thickness))
  else mret image.

Definition create_4x6_image
    (image : rgb_image) (add_border : bool) (border_thickness : Z) : result rgb_image :=
  let canvas_width := 1200 in
  let canvas_height := 1800 in
  canvas ← Image_new canvas_width canvas_height WHITE;
  image ← tile image add_border border_thickness;
  mret (fold_left (fun canvas pos => paste canvas image pos) positions canvas).

End App.

(** ** The contract of the geometry extractor, as the specification words it

    Each coordinate is a float expression handed to a float-to-int
    conversion. The specification names [round]; the conversion is a
    parameter, so that the extractor can be compared with both readings. *)

Definition landmark_at (landmarks : landmark_list) (i : nat) : result Landmark.t :=
  match nth_error landmarks i with
  | Some l => Ok l
  | None => Raise IndexError
  end.

Definition contract_y (to_int : float -> result Z)
    (landmarks : landmark_list) (i : nat) (h : Z) : result Z :=
  l ← landmark_at landmarks i;
  v ← mul_int (Landmark.y l) h;
  to_int v.

Definition contract_eye_mid (to_int : float -> result Z) (coord : Landmark.t -> float)
    (landmarks : landmark_list) (side : Z) : result Z :=
  l ← landmark_at landmarks 33;
  r ← landmark_at landmarks 263;
  two ← of_int 2;
  half ← truediv (add (coord l) (coord r)) two;
  v ← mul_int half side;
  to_int v.

Definition contract_mid (to_int : float -> result Z) (top chin : Z) : result Z :=
  v ← int_truediv (top + chin) 2;
  to_int v.

Definition geometry_contract (to_int : float -> result Z)
    (landmarks : landmark_list) (w h : Z) : result geometry :=
  match contract_y to_int landmarks 10 h with
  | Raise e => Raise e
  | Ok top =>
    match contract_y to_int landmarks 152 h with
    | Raise e => Raise e
    | Ok chin =>
      match contract_eye_mid to_int Landmark.y landmarks h with
      | Raise e => Raise e
      | Ok eyeY =>
        match contract_eye_mid to_int Landmark.x landmarks w with
        | Raise e => Raise e
        | Ok centerX =>
          match contract_mid to_int top chin with
          | Raise e => Raise e
          | Ok centerY => Ok (mkGeometry top chin eyeY centerX centerY)
          end
        end
      end
    end
  end.

(** ** The footprint of a pasted tile *)

(** Does pasting [tl] at [pos] write pixel [(x, y)]: the test [paste] makes. *)
Definition covers (tl : rgb_image) (pos : Z * Z) (x y : Z) : bool :=
  inside tl (x - fst pos) (y - snd pos).

(** How many pixel columns the footprints of [tl] pasted at columns [p]
    and [q] have in common. *)
Definition shared_columns (tl : rgb_image) (p q : Z) : Z :=
  Z.max 0 (Z.min (p + Z.of_nat (width tl)) (q + Z.of_nat (width tl)) - Z.max p q).

(** How many pixel rows the footprints of [tl] pasted at rows [p] and [q]
    have in common. *)
Definition shared_rows (tl : rgb_image) (p q : Z) : Z :=
  Z.max 0 (Z.min (p + Z.of_nat (height tl)) (q + Z.of_nat (height tl)) - Z.max p q).

(** The origin of the cell of the sheet a pixel lies in. *)
Definition cell_origin (x y : Z) : Z * Z :=
  (if x <? 600 then 0 else 600,
   if y <? 600 then 0 else if y <? 1200 then 600 else 1200).

(** ** Sample inputs

    Concrete pictures, landmark sets and stand-ins for the libraries, on
    which the program is run in the examples below. *)

Module Sample.

(** A landmark set of 468 entries; entries 10 and 152 carry the given
    heights, entries 33 and 263 are the given eye centres. *)
Definition face (y10 y152 : float) (left_eye right_eye : Landmark.t) : landmark_list :=
  map (fun i =>
         if Nat.eqb i 10 then Landmark.mk (literal 1 2) y10
         else if Nat.eqb i 152 then Landmark.mk (literal 1 2) y152
         else if Nat.eqb i 33 then left_eye
         else if Nat.eqb i 263 then right_eye
         else Landmark.mk (literal 1 2) (literal 1 2))
      (seq 0 468).

(** the synthetic landmark set of the specification *)
Definition synthetic : landmark_list :=
  face (literal 1 10) (literal 9 10)
       (Landmark.mk (literal 4 10) (literal 3 10))
       (Landmark.mk (literal 6 10) (literal 3 10)).

(** forehead and chin on the same height *)
Definition flat : landmark_list :=
  face (literal 1 2) (literal 1 2)
       (Landmark.mk (literal 4 10) (literal 3 10))
       (Landmark.mk (literal 6 10) (literal 3 10)).

(** chin above the forehead *)
Definition upside_down : landmark_list :=
  face (literal 3 4) (literal 1 4)
       (Landmark.mk (literal 4 10) (literal 3 10))
       (Landmark.mk (literal 6 10) (literal 3 10)).

(** forehead on the middle row *)
Definition halfway : landmark_list :=
  face (literal 1 2) (literal 3 4)
       (Landmark.mk (literal 1 4) (literal 1 2))
       (Landmark.mk (literal 3 4) (literal 1 2)).

(** a portrait for the overlay: forehead at a quarter, chin at three quarters *)
Definition portrait : landmark_list :=
  face (literal 1 4) (literal 3 4)
       (Landmark.mk (literal 3 8) (literal 3 8))
       (Landmark.mk (literal 5 8) (literal 3 8)).

Definition white_tile : rgb_image := solid 600 600 WHITE.

(** a tile whose pixels all differ: the colour encodes the position *)
Definition gradient_tile : rgb_image :=
  mkRaster 600 600 (fun x y => mkRGB (x mod 256) (y mod 256) ((x / 256) + 4 * (y / 256))).

(** a store that holds one image object *)
Definition shelf : gmap loc rgb_image := {[ 1%positive := white_tile ]}.

Definition photo (w h : nat) : rgb_image :=
  mkRaster h w (fun x y => mkRGB (x mod 256) (y mod 256) 7).

(** Stand-ins for the libraries: pictures arrive flattened, the face
    mesh is the given function, resizing takes the nearest pixel, grey is
    the integer luma, the font paints a box of 6 by 11 pixels per
    character, every number is printed as [0.0], and the standard
    deviation is the root of the exact variance. *)
Definition libraries (mesh : rgb_image -> option (list landmark_list)) : Libraries :=
  {| Picture := rgb_image;
     composite_on_white := fun p => p;
     face_mesh_process := mesh;
     INTER_CUBIC := fun src w h x y =>
       pixel src (x * Z.of_nat (width src) / w) (y * Z.of_nat (height src) / h);
     resample := fun src w h x y =>
       pixel src (x * Z.of_nat (width src) / w) (y * Z.of_nat (height src) / h);
     COLOR_RGB2GRAY := fun c => (299 * red c + 587 * green c + 114 * blue c) / 1000;
     default_font_mask := fun s dx dy =>
       (0 <=? dx) && (dx <? 6 * Z.of_nat (String.length s)) && (0 <=? dy) && (dy <? 11);
     format_1f := fun _ => "0.0"%string;
     np_std := fun a =>
       let n := np_size a in
       let sq := raster_sum (mkRaster (height a) (width a)
                               (fun x y => pixel a x y * pixel a x y)) in
       SFsqrt prec emax (literal (n * sq - raster_sum a * raster_sum a) (n * n)) |}.

Definition sees (landmarks : landmark_list) : Libraries :=
  libraries (fun _ => Some [landmarks]).

Definition blind : Libraries := libraries (fun _ => None).

(** the same stand-ins for images of one colour, whose standard deviation
    is zero and need not be computed *)
Definition uniform : Libraries :=
  {| Picture := @Picture blind;
     composite_on_white := @composite_on_white blind;
     face_mesh_process := @face_mesh_process blind;
     INTER_CUBIC := @INTER_CUBIC blind;
     resample := @resample blind;
     COLOR_RGB2GRAY := @COLOR_RGB2GRAY blind;
     default_font_mask := @default_font_mask blind;
     format_1f := @format_1f blind;
     np_std := fun _ => S754_zero false |}.

End Sample.

(** ** Further notions used by the properties below *)

Definition round_trip_exact (px : Z) : bool :=
  match round_trip px with
  | Ok r => r =? px
  | Raise _ => false
  end.

(** a zero or a finite number: neither a NaN nor an infinity *)
Definition is_finite (f : float) : bool :=
  match f with
  | S754_zero _ | S754_finite _ _ _ => true
  | S754_infinity _ | S754_nan => false
  end.

(** [m] keeps the object at [r], and keeps its size, however it ends. *)
Definition keeps_shape {A} (r : loc) (m : io A) : Prop :=
  forall σ im, σ !! r = Some im ->
    exists im', snd (m σ) !! r = Some im'
                /\ height im' = height im /\ width im' = width im.

(** ** File names

    [s.replace(old, "")] for a non-empty [old]: the occurrences are found
    from left to right and do not overlap. [skip] counts the characters of
    the occurrence just found that are still to be dropped. *)

Fixpoint remove_from (old : string) (skip : nat) (s : string) : string :=
  match s with
  | EmptyString => EmptyString
  | String c rest =>
      match skip with
      | S k => remove_from old k rest
      | O =>
          if String.prefix old s
          then remove_from old (String.length old - 1) rest
          else String c (remove_from old 0 rest)
      end
  end.

Definition remove_all (old s : string) : string :=
  match old with
  | EmptyString => s
  | String _ _ => remove_from old 0 s
  end.

Definition DOTDOT : string := "..".
Definition SLASH : string := "/".
(** the backslash, character 92 *)
Definition BACKSLASH : string := String (Ascii.ascii_of_nat 92) EmptyString.

(** [fname.replace("..", "")], then the same for the slash and for the
    backslash *)
Definition sanitize (fname : string) : string :=
  remove_all BACKSLASH (remove_all SLASH (remove_all DOTDOT fname)).

(** [old] occurs in [s] *)
Definition occurs (old s : string) : Prop :=
  exists a b, s = a +:+ old +:+ b.

(** the same as a test: [old in s] *)
Fixpoint occursb (old s : string) : bool :=
  String.prefix old s
  || match s with
     | EmptyString => false
     | String _ rest => occursb old rest
     end.

(** ** The page: what happens to an upload

    The part of the script under [if uploaded_file:]. A run of the script
    starts with no name bound; the widgets are given by the values they
    return in this run, and the calls that put something on the page are
    recorded in their order. *)

Inductive image_format : Set := JPEG | PNG.

(** the bytes of [im.save(buf, format=..., dpi=(DPI, DPI), ...)], kept as
    the arguments of the call *)
Record encoded : Type := mkEncoded {
  enc_image : rgb_image;
  enc_format : image_format;
  enc_dpi : Z * Z;
  enc_quality : option Z
}.

Record widgets : Set := mkWidgets {
  w_fmt : image_format;           (* st.radio("Select format", ...) *)
  w_fname : string;               (* st.text_input("File name", ...) *)
  w_download : bool;              (* st.button("Download final image") *)
  w_add_border : bool;            (* st.checkbox("Add border ...") *)
  w_border_thickness : Z;         (* st.selectbox("Select border thickness ...") *)
  w_fmt_4x6 : image_format;       (* st.radio(..., key="4x6_format") *)
  w_fname_4x6 : string;           (* st.text_input(..., key="4x6_filename") *)
  w_download_4x6 : bool           (* st.button("Download 4x6 Image") *)
}.

Definition SIZE_MESSAGE : string :=
  "File size exceeds 10MB. Please upload a smaller file.".
Definition INVALID_IMAGE_MESSAGE : string :=
  "Invalid image file. Please upload a valid JPG or PNG image.".
Definition UNEXPECTED_MESSAGE : string :=
  "An unexpected error occurred. Please try again.".

Definition extension (fmt : image_format) : string :=
  match fmt with
  | JPEG => "jpg"
  | PNG => "png"
  end.

Definition save (im : rgb_image) (fmt : image_format) : encoded :=
  match fmt with
  | JPEG => mkEncoded im JPEG (DPI, DPI) (Some 95)
  | PNG => mkEncoded im PNG (DPI, DPI) None
  end.

Section Page.
Context `{Libraries}.

Inductive shown : Type :=
| ShownPicture (p : Picture)
| ShownImage (im : rgb_image).

Inductive st_call : Type :=
| st_error (msg : string)
| st_warning (msg : string)
| st_image (what : shown) (caption : string)
| st_subheader (text : string)
| st_markdown (text : string)
| st_write (text : string)
| st_download_button (label : string) (data : encoded) (file_name mime : string).

(** the uploaded file: its size and what [Image.open], [verify] and the
    second [Image.open] make of it *)
Record upload : Type := mkUpload {
  up_size : Z;
  up_open : result Picture
}.

(** [processed_img] holds an image object, or is [None] or not bound at all *)
Record page_state : Type := mkPage {
  calls : list st_call;
  objects : gmap loc rgb_image;
  processed_img : option loc
}.

Definition script (A : Type) : Type := page_state -> result A * page_state.

#[local] Instance script_ret : MRet script := fun A a s => (Ok a, s).
#[local] Instance script_bind : MBind script := fun A B f m s =>
  match m s with
  | (Ok a, s') => f a s'
  | (Raise e, s') => (Raise e, s')
  end.

Definition emit (c : st_call) : script unit := fun s =>
  (Ok tt, mkPage (calls s ++ [c]) (objects s) (processed_img s)).

Definition run_io {A} (m : io A) : script A := fun s =>
  (fst (m (objects s)), mkPage (calls s) (snd (m (objects s))) (processed_img s)).

Definition run_result {A} (r : result A) : script A := fun s => (r, s).

Definition assign_processed_img (v : option loc) : script unit := fun s =>
  (Ok tt, mkPage (calls s) (objects s) v).

Definition read_processed_img : script (option loc) := fun s =>
  (Ok (processed_img s), s).

(** [try: body except Exception: handler] *)
Definition try_except (body handler : script unit) : script unit := fun s =>
  match body s with
  | (Ok u, s') => (Ok u, s')
  | (Raise _, s') => handler s'
  end.

Fixpoint emit_all (cs : list st_call) : script unit :=
  match cs with
  | [] => mret tt
  | c :: cs => _ ← emit c; emit_all cs
  end.

(** [st.download_button("Click to Download", data=buf.getvalue(),
    file_name=f"{fname}.{ext}", mime=f"image/{ext}")] after the save *)
Definition download_call (im : rgb_image) (fmt : image_format) (fname : string) : st_call :=
  st_download_button "Click to Download" (save im fmt)
    (fname +:+ "." +:+ extension fmt) ("image/" +:+ extension fmt).

Definition final_file_section (processed : loc) (w : widgets) : script unit :=
  _ ← emit (st_markdown "---");
  _ ← emit (st_write "**Save final file:**");
  let fmt := w_fmt w in
  let fname := sanitize (w_fname w) in
  if w_download w then
    im ← run_io (load processed);
    emit (download_call im fmt fname)
  else mret tt.

Definition processing_block (orig_image : Picture) (w : widgets) : script unit :=
  r ← run_result (process_photo orig_image);
  p ← match fst r with
      | Some im => l ← run_io (alloc im); mret (Some l)
      | None => mret None
      end;
  _ ← assign_processed_img p;
  let error_msg := snd r in
  match error_msg with
  | String _ _ => emit (st_error error_msg)
  | EmptyString =>
      _ ← emit (st_subheader "Preview (with measurement overlay)");
      match p with
      | None => run_result (Raise ReferenceError)
      | Some processed =>
          preview_img ← run_io (preview_block processed);
          preview ← run_io (load preview_img);
          _ ← emit (st_image (ShownImage preview) "Processed preview");
          warnings ← run_io (check_warnings processed);
          _ ← emit_all (map st_warning warnings);
          final_file_section processed w
      end
  end.

Definition sheet_section (w : widgets) : script unit :=
  p ← read_processed_img;
  match p with
  | Some processed =>
      let add_border := w_add_border w in
      let border_thickness := if add_border then w_border_thickness w else 5 in
      im ← run_io (load processed);
      preview_4x6 ← run_result (create_4x6_image im add_border border_thickness);
      _ ← emit (st_image (ShownImage preview_4x6) "4x6 Inch Preview");
      _ ← emit (st_write "**Save 4x6 Image:**");
      let fmt_4x6 := w_fmt_4x6 w in
      let fname_4x6 := w_fname_4x6 w in
      if w_download_4x6 w then emit (download_call preview_4x6 fmt_4x6 fname_4x6)
      else mret tt
  | None => mret tt
  end.

Definition upload_block (u : upload) (w : widgets) : script unit :=
  _ ← try_except
        (if 10 * 1024 * 1024 <? up_size u then emit (st_error SIZE_MESSAGE)
         else
           try_except
             (orig_image ← run_result (up_open u);
              _ ← emit (st_image (ShownPicture orig_image) "Original uploaded image");
              processing_block orig_image w)
             (emit (st_error INVALID_IMAGE_MESSAGE)))
        (emit (st_error UNEXPECTED_MESSAGE));
  _ ← emit (st_markdown "---");
  _ ← emit (st_subheader "Create 4x6 Inch Printable Image");
  sheet_section w.

(** the state in which a run of the script starts *)
Definition fresh_run : page_state := mkPage [] ∅ None.

(** every call that [m] adds to the page satisfies [P] *)
Definition adds_only (P : st_call -> Prop) {A} (m : script A) : Prop :=
  forall s, exists added,
    calls (snd (m s)) = calls s ++ added /\ Forall P added.

(** [m] always returns *)
Definition never_raises {A} (m : script A) : Prop :=
  forall s, exists a, fst (m s) = Ok a.

End Page.

(** * Properties *)

(** ** Floats: signs and truncation *)

Lemma binary_round_aux_sign (s : bool) (m e : Z) (l : location) :
  signbit (binary_round_aux prec emax s m e l) = Some s
  \/ binary_round_aux prec emax s m e l = S754_nan.
Proof.
  unfold binary_round_aux.
  destruct (shr_fexp prec emax m e l) as [mrs' e'].
  destruct (shr_fexp prec emax _ e' loc_Exact) as [mrs'' e''].
  destruct (shr_m mrs''); [left; reflexivity| |right; reflexivity].
  destruct (e'' <=? emax - prec); left; reflexivity.
Qed.

Lemma binary_round_sign (s : bool) (m : positive) (e : Z) :
  signbit (binary_round prec emax s m e) = Some s
  \/ binary_round prec emax s m e = S754_nan.
Proof.
  unfold binary_round.
  destruct (shl_align m e _) as [mz ez].
  apply binary_round_aux_sign.
Qed.

Lemma trunc_mag_nonneg (m : positive) (e : Z) : 0 <= trunc_mag m e.
Proof.
  unfold trunc_mag. destruct e.
  - apply Z.shiftl_nonneg. lia.
  - apply Z.shiftl_nonneg. lia.
  - apply Z.shiftr_nonneg. lia.
Qed.

Lemma py_int_sign_set (f : float) (z : Z) :
  signbit f <> Some false -> py_int f = Ok z -> z <= 0.
Proof.
  destruct f as [s|s| |s m e]; simpl; intros Hs Hz; try discriminate.
  - inversion Hz. lia.
  - destruct s; [|congruence].
    inversion Hz. simpl. pose proof (trunc_mag_nonneg m e). lia.
Qed.

Lemma int_truediv_sign_set (a b : Z) (q : float) :
  0 < a -> b < 0 -> int_truediv a b = Ok q -> signbit q <> Some false.
Proof.
  intros Ha Hb. unfold int_truediv.
  destruct (Z.eqb_spec b 0) as [->|_]; [lia|].
  destruct a as [|pa|pa]; try lia.
  destruct b as [|pb|pb]; try lia.
  cbn [SFdiv Z.ltb Z.compare xorb].
  destruct (SFdiv_core_binary prec emax _ _ _ _) as [[mz ez] lz].
  destruct (binary_round_aux_sign true mz ez lz) as [Hq|Hq].
  - destruct (is_infinity _); intros [= <-]. rewrite Hq. discriminate.
  - rewrite Hq. simpl. intros [= <-]. discriminate.
Qed.

Lemma of_int_sign_clear (z : Z) (d : float) :
  0 <= z -> of_int z = Ok d ->
  d = S754_nan \/ (exists s', d = S754_zero s' /\ s' = false)
  \/ exists m e, d = S754_finite false m e.
Proof.
  intros Hz. unfold of_int, binary_normalize.
  destruct z as [|p|p]; try lia.
  - simpl. intros [= <-]. right. left. eauto.
  - destruct (binary_round_sign false p 0) as [Hs|Hn].
    + destruct (binary_round prec emax false p 0) as [s|s| |s m e];
        simpl in *; try discriminate.
      * intros [= <-]. right. left. exists s. split; congruence.
      * intros [= <-]. right. right. exists m, e. congruence.
    + rewrite Hn. simpl. intros [= <-]. now left.
Qed.

Lemma int_mul_sign_set (z : Z) (f r : float) :
  0 <= z -> signbit f <> Some false -> int_mul z f = Ok r ->
  signbit r <> Some false.
Proof.
  intros Hz Hf. unfold int_mul.
  destruct (of_int z) as [d|e] eqn:Hd; simpl; [|discriminate].
  intros [= <-].
  destruct (of_int_sign_clear z d Hz Hd) as [->|[(s' & -> & ->)|(m & e & ->)]].
  - simpl. discriminate.
  - destruct f as [s|s| |s mf ef]; simpl in *; try discriminate;
      destruct s; simpl; congruence.
  - destruct f as [s|s| |s mf ef]; simpl in *; try discriminate;
      try (destruct s; simpl; congruence).
    destruct s; [|congruence].
    unfold mul. cbn [SFmul xorb].
    destruct (binary_round_aux_sign true (Zpos (m * mf)) (e + ef) loc_Exact) as [Hq|Hq];
      rewrite Hq; discriminate.
Qed.

(** [int(f)] cuts the magnitude of a finite float to its integer part. *)
Lemma py_int_truncates (s : bool) (m : positive) (e : Z) :
  py_int (S754_finite s m e)
  = Ok (cond_Zopp s (if e <? 0 then Zpos m / 2 ^ (- e) else Zpos m * 2 ^ e)).
Proof.
  unfold py_int, to_int_with, trunc_mag. f_equal. f_equal.
  destruct e as [|p|p].
  - change (0 <? 0) with false. cbv iota.
    rewrite Z.shiftl_0_r. change (2 ^ 0) with 1. lia.
  - change (Z.pos p <? 0) with false. cbv iota.
    apply Z.shiftl_mul_pow2. lia.
  - change (Z.neg p <? 0) with true. cbv iota.
    rewrite Z.shiftr_div_pow2 by lia. reflexivity.
Qed.

(** ** The converters *)

Lemma mm_to_px_26 : mm_to_px (PyInt 26) = Ok 306.
Proof. vm_compute. reflexivity. Qed.

Lemma mm_to_px_31 : mm_to_px (PyInt ((EYE_MIN_MM + EYE_MAX_MM) / 2)) = Ok 365.
Proof. vm_compute. reflexivity. Qed.

Lemma px_to_mm_anchor : px_to_mm 600 = Ok (literal 51 1).
Proof. vm_compute. reflexivity. Qed.

Lemma round_trip_checked :
  forallb (fun n => round_trip_within_one (Z.of_nat n)) (seq 0 601) = true.
Proof. vm_compute. reflexivity. Qed.

(** C7: for every pixel count [px] of the calibrated output space, that is
    [0 <= px <= 600], [mm_to_px(px_to_mm(px))] is computed (nothing is
    raised) and differs from [px] by at most 1. The floats are binary64. *)
Theorem mm_px_round_trip (px : Z) :
  0 <= px <= OUTPUT_SIZE_PX ->
  exists mm r,
    px_to_mm px = Ok mm /\ mm_to_px (PyFloat mm) = Ok r /\ Z.abs (r - px) <= 1.
Proof.
  unfold OUTPUT_SIZE_PX. intros Hpx.
  pose proof round_trip_checked as Hall.
  rewrite forallb_forall in Hall.
  specialize (Hall (Z.to_nat px)).
  rewrite Z2Nat.id in Hall by lia.
  assert (Hin : In (Z.to_nat px) (seq 0 601)) by (apply in_seq; lia).
  specialize (Hall Hin).
  unfold round_trip_within_one, round_trip in Hall.
  destruct (px_to_mm px) as [mm|e]; simpl in Hall; [|discriminate].
  destruct (mm_to_px (PyFloat mm)) as [r|e] eqn:Hr; [|discriminate].
  exists mm, r. split; [reflexivity|]. split; [exact Hr|].
  apply Z.leb_le. exact Hall.
Qed.

Lemma mm_px_round_trip_witness :
  exists mm r,
    px_to_mm 337 = Ok mm /\ mm_to_px (PyFloat mm) = Ok r /\ Z.abs (r - 337) <= 1.
Proof. apply (mm_px_round_trip 337). unfold OUTPUT_SIZE_PX. lia. Defined.

(** ** The result monad *)

Ltac rsimpl :=
  cbv beta iota zeta delta [mbind result_bind mret result_ret].

Ltac rsimpl_in H :=
  cbv beta iota zeta delta [mbind result_bind mret result_ret] in H.

Lemma raises_bind {A B} (m : result A) (f : A -> result B) :
  (forall a, m = Ok a -> raises (f a)) -> raises (m ≫= f).
Proof.
  intros Hf. destruct m as [a|e]; rsimpl.
  - apply Hf. reflexivity.
  - exists e. reflexivity.
Qed.

Lemma bind_Ok_inv {A B} (m : result A) (f : A -> result B) (b : B) :
  m ≫= f = Ok b -> exists a, m = Ok a /\ f a = Ok b.
Proof.
  destruct m as [a|e]; rsimpl; [eauto|discriminate].
Qed.

Lemma raises_not_Ok {A} (r : result A) (a : A) : raises r -> r <> Ok a.
Proof. intros [e ->]. discriminate. Qed.

(** ** Geometry extractor *)

Lemma item_landmark_at (landmarks : landmark_list) (i : nat) :
  item landmarks i = landmark_at landmarks i.
Proof.
  unfold item, landmark_at.
  revert i. induction landmarks as [|l ls IH]; intros [|i]; simpl; auto.
Qed.

(** C9: on the synthetic landmark set of the specification
    (landmark 10 at height 0.1, landmark 152 at height 0.9, the eye centres
    at (0.4, 0.3) and (0.6, 0.3)) and a 1000 by 1000 image the extractor
    returns top 100, chin 900, eye line 300, centre (500, 500). The floats
    are binary64 and the literals the doubles nearest to the decimals. *)
Theorem synthetic_geometry (landmarks : landmark_list) (l10 l152 l33 l263 : Landmark.t) :
  landmarks !! 10%nat = Some l10 ->
  landmarks !! 152%nat = Some l152 ->
  landmarks !! 33%nat = Some l33 ->
  landmarks !! 263%nat = Some l263 ->
  Landmark.y l10 = literal 1 10 ->
  Landmark.y l152 = literal 9 10 ->
  Landmark.x l33 = literal 4 10 -> Landmark.y l33 = literal 3 10 ->
  Landmark.x l263 = literal 6 10 -> Landmark.y l263 = literal 3 10 ->
  get_head_and_eye_positions landmarks 1000 1000
  = Ok (mkGeometry 100 900 300 500 500).
Proof.
  intros H10 H152 H33 H263 Hy10 Hy152 Hx33 Hy33 Hx263 Hy263.
  unfold get_head_and_eye_positions, item.
  rewrite H10, H152, H33, H263. rsimpl.
  rewrite Hy10, Hy152, Hx33, Hy33, Hx263, Hy263.
  vm_compute. reflexivity.
Qed.

Lemma synthetic_geometry_witness :
  get_head_and_eye_positions Sample.synthetic 1000 1000
  = Ok (mkGeometry 100 900 300 500 500).
Proof.
  apply (synthetic_geometry Sample.synthetic
           (Landmark.mk (literal 1 2) (literal 1 10))
           (Landmark.mk (literal 1 2) (literal 9 10))
           (Landmark.mk (literal 4 10) (literal 3 10))
           (Landmark.mk (literal 6 10) (literal 3 10)));
    reflexivity.
Defined.

(** C4, as the code has it: every coordinate is the float expression of
    the contract cut towards zero by [int], not rounded to the nearest
    integer: top = int(landmark[10].y * h), chin = int(landmark[152].y * h),
    eyeY = int((landmark[33].y + landmark[263].y) / 2 * h),
    centerX = int((landmark[33].x + landmark[263].x) / 2 * w),
    centerY = int((top + chin) / 2); the extractor raises exactly when the
    contract does. [int] of a finite float keeps the integer part of its
    magnitude. *)
Theorem geometry_truncates :
  (forall (landmarks : landmark_list) (w h : Z),
     get_head_and_eye_positions landmarks w h
     = geometry_contract py_int landmarks w h)
  /\ (forall (s : bool) (m : positive) (e : Z),
        py_int (S754_finite s m e)
        = Ok (cond_Zopp s (if e <? 0 then Zpos m / 2 ^ (- e) else Zpos m * 2 ^ e))).
Proof.
  split; [|apply py_int_truncates].
  intros landmarks w h.
  unfold get_head_and_eye_positions, geometry_contract,
    contract_y, contract_eye_mid, contract_mid, num_truediv_int.
  rewrite !item_landmark_at.
  destruct (landmark_at landmarks 10) as [l10|]; rsimpl; [|reflexivity].
  destruct (mul_int (Landmark.y l10) h) as [t|]; rsimpl; [|reflexivity].
  destruct (py_int t) as [top|]; rsimpl; [|reflexivity].
  destruct (landmark_at landmarks 152) as [l152|]; rsimpl; [|reflexivity].
  destruct (mul_int (Landmark.y l152) h) as [c|]; rsimpl; [|reflexivity].
  destruct (py_int c) as [chin|]; rsimpl; [|reflexivity].
  destruct (landmark_at landmarks 33) as [l33|]; rsimpl; [|reflexivity].
  destruct (landmark_at landmarks 263) as [l263|]; rsimpl; [|reflexivity].
  destruct (of_int 2) as [two|]; rsimpl; [|reflexivity].
  destruct (truediv (add (Landmark.y l33) (Landmark.y l263)) two) as [ey|];
    rsimpl; [|reflexivity].
  destruct (mul_int ey h) as [ey'|]; rsimpl; [|reflexivity].
  destruct (py_int ey') as [eye|]; rsimpl; [|reflexivity].
  destruct (truediv (add (Landmark.x l33) (Landmark.x l263)) two) as [ex|];
    rsimpl; [|reflexivity].
  destruct (mul_int ex w) as [ex'|]; rsimpl; [|reflexivity].
  destruct (py_int ex') as [cx|]; rsimpl; [|reflexivity].
  destruct (int_truediv (top + chin) 2) as [m|]; rsimpl; [|reflexivity].
  destruct (py_int m) as [cy|]; reflexivity.
Qed.

(** C4, as stated, fails: with landmark 10 at height 0.5 on an image of
    999 rows the product is 499.5; rounding gives 500, the extractor
    returns 499 (and the same for the eye line and the centre column). *)
Lemma geometry_not_rounded :
  get_head_and_eye_positions Sample.halfway 999 999
  = Ok (mkGeometry 499 749 499 499 624)
  /\ geometry_contract py_round Sample.halfway 999 999
     = Ok (mkGeometry 500 749 500 500 624)
  /\ get_head_and_eye_positions Sample.halfway 999 999
     <> geometry_contract py_round Sample.halfway 999 999.
Proof.
  assert (H1 : get_head_and_eye_positions Sample.halfway 999 999
               = Ok (mkGeometry 499 749 499 499 624))
    by (vm_compute; reflexivity).
  assert (H2 : geometry_contract py_round Sample.halfway 999 999
               = Ok (mkGeometry 500 749 500 500 624))
    by (vm_compute; reflexivity).
  split; [exact H1|]. split; [exact H2|].
  rewrite H1, H2. discriminate.
Qed.

(** ** Photo processing: failures *)

Section Failures.
Context `{Libraries}.

Lemma process_photo_face (picture : Picture) (l : Landmark.t) (ls : landmark_list)
    (out : option rgb_image) (msg : string) :
  detect_face_landmarks (composite_on_white picture) = Some (l :: ls) ->
  process_photo picture = Ok (out, msg) ->
  (exists im, out = Some im) /\ msg = ""%string.
Proof.
  intros Hd. unfold process_photo. rewrite Hd.
  repeat (let a := fresh "a" in let Ha := fresh "Ha" in
          intros Hb; apply bind_Ok_inv in Hb; destruct Hb as (a & Ha & Hb);
          revert Hb).
  rsimpl. intros [= <- <-]. eauto.
Qed.

(** C2: [process_photo] reports "no face" (no image, and the non-empty
    message [NO_FACE_MESSAGE]) exactly when the landmark oracle returns no
    landmarks, that is nothing or an empty landmark list; every other
    result it returns carries an image and the empty message. *)
Theorem no_face_exactly_without_landmarks (picture : Picture) :
  NO_FACE_MESSAGE <> ""%string
  /\ (falsy (detect_face_landmarks (composite_on_white picture)) = true
      <-> process_photo picture = Ok (None, NO_FACE_MESSAGE))
  /\ (forall out msg,
        process_photo picture = Ok (out, msg) ->
        (out = None \/ msg <> ""%string) ->
        falsy (detect_face_landmarks (composite_on_white picture)) = true).
Proof.
  split; [discriminate|].
  destruct (detect_face_landmarks (composite_on_white picture))
    as [[|l ls]|] eqn:Hd.
  - unfold process_photo. rewrite Hd. simpl. split; [tauto|]. reflexivity.
  - split.
    + split; [discriminate|].
      intros Hp. destruct (process_photo_face _ _ _ _ _ Hd Hp) as [[im Him] _].
      discriminate.
    + intros out msg Hp Hno.
      destruct (process_photo_face _ _ _ _ _ Hd Hp) as [[im ->] ->].
      destruct Hno; congruence.
  - unfold process_photo. rewrite Hd. simpl. split; [tauto|]. reflexivity.
Qed.

(** C1, as the code has it: when landmarks were found and the head height
    [chin - top] is not positive, [process_photo] returns nothing, neither
    an image nor an error message: it raises. With a head height of 0 it
    is the division [target_head_px / head_px] that raises
    [ZeroDivisionError]. There is no [DegenerateGeometry] result. *)
Theorem degenerate_head_raises (picture : Picture) (landmarks : landmark_list) (g : geometry) :
  detect_face_landmarks (composite_on_white picture) = Some landmarks ->
  landmarks <> [] ->
  get_head_and_eye_positions landmarks
    (Z.of_nat (width (composite_on_white picture)))
    (Z.of_nat (height (composite_on_white picture))) = Ok g ->
  g_chin g - g_top g <= 0 ->
  raises (process_photo picture)
  /\ (g_chin g - g_top g = 0 -> process_photo picture = Raise ZeroDivisionError).
Proof.
  intros Hd Hne Hg Hhead.
  unfold process_photo. rewrite Hd.
  destruct landmarks as [|l0 ls]; [congruence|].
  rewrite Hg. rsimpl. rewrite mm_to_px_26. rsimpl.
  split.
  - apply raises_bind. intros head_mm _.
    destruct (Z.eq_dec (g_chin g - g_top g) 0) as [Hz|Hnz].
    + rewrite Hz. exists ZeroDivisionError. reflexivity.
    + apply raises_bind. intros scale Hscale.
      assert (Hs : signbit scale <> Some false)
        by (apply (int_truediv_sign_set 306 (g_chin g - g_top g)); [lia|lia|exact Hscale]).
      apply raises_bind. intros w Hw.
      apply raises_bind. intros new_w Hnw.
      assert (Hneg : new_w <= 0).
      { apply (py_int_sign_set w); [|exact Hnw].
        eapply int_mul_sign_set; [|exact Hs|exact Hw]. lia. }
      apply raises_bind. intros h _.
      apply raises_bind. intros new_h _.
      unfold cv2_resize.
      destruct (Z.leb_spec new_w 0) as [_|]; [|lia].
      rewrite orb_true_r. simpl. exists Cv2Error. reflexivity.
  - intros Hz. rewrite Hz.
    replace (px_to_mm 0) with (Ok (S754_zero false)) by (vm_compute; reflexivity).
    reflexivity.
Qed.

End Failures.

Lemma degenerate_head_raises_witness :
  raises (@process_photo (Sample.sees Sample.upside_down) (Sample.photo 1000 1000))
  /\ (250 - 750 = 0 ->
      @process_photo (Sample.sees Sample.upside_down) (Sample.photo 1000 1000)
      = Raise ZeroDivisionError).
Proof.
  apply (@degenerate_head_raises (Sample.sees Sample.upside_down)
           (Sample.photo 1000 1000) Sample.upside_down
           (mkGeometry 750 250 300 500 500)).
  - reflexivity.
  - discriminate.
  - vm_compute. reflexivity.
  - simpl. lia.
Defined.

(** C1, as stated, fails: with forehead and chin on the same row the head
    height is 0 and [process_photo] raises [ZeroDivisionError]; it returns
    no error value. *)
Lemma degenerate_head_unhandled :
  @detect_face_landmarks (Sample.sees Sample.flat) (Sample.photo 1000 1000)
  = Some Sample.flat
  /\ get_head_and_eye_positions Sample.flat 1000 1000
     = Ok (mkGeometry 500 500 300 500 500)
  /\ @process_photo (Sample.sees Sample.flat) (Sample.photo 1000 1000)
     = Raise ZeroDivisionError
  /\ forall out msg,
       @process_photo (Sample.sees Sample.flat) (Sample.photo 1000 1000)
       <> Ok (out, msg).
Proof.
  assert (Hp : @process_photo (Sample.sees Sample.flat) (Sample.photo 1000 1000)
               = Raise ZeroDivisionError) by (vm_compute; reflexivity).
  split; [reflexivity|]. split; [vm_compute; reflexivity|]. split; [exact Hp|].
  intros out msg. rewrite Hp. discriminate.
Qed.

(** ** Rasters *)

Lemma inside_true {P} (a : raster P) (x y : Z) :
  0 <= x < Z.of_nat (width a) -> 0 <= y < Z.of_nat (height a) ->
  inside a x y = true.
Proof.
  intros Hx Hy. unfold inside.
  destruct (Z.leb_spec 0 x); [|lia].
  destruct (Z.ltb_spec x (Z.of_nat (width a))); [|lia].
  destruct (Z.leb_spec 0 y); [|lia].
  destruct (Z.ltb_spec y (Z.of_nat (height a))); [|lia].
  reflexivity.
Qed.

Lemma inside_false {P} (a : raster P) (x y : Z) :
  x < 0 \/ Z.of_nat (width a) <= x \/ y < 0 \/ Z.of_nat (height a) <= y ->
  inside a x y = false.
Proof.
  intros Hout. unfold inside.
  destruct (Z.leb_spec 0 x); [|reflexivity].
  destruct (Z.ltb_spec x (Z.of_nat (width a))); [|reflexivity].
  destruct (Z.leb_spec 0 y); [|reflexivity].
  destruct (Z.ltb_spec y (Z.of_nat (height a))); [lia|reflexivity].
Qed.

Lemma inside_iff {P} (a : raster P) (x y : Z) :
  inside a x y = true
  <-> 0 <= x < Z.of_nat (width a) /\ 0 <= y < Z.of_nat (height a).
Proof.
  split.
  - intros Hin.
    destruct (Z_lt_le_dec x 0); [rewrite inside_false in Hin by lia; discriminate|].
    destruct (Z_lt_le_dec x (Z.of_nat (width a)));
      [|rewrite inside_false in Hin by lia; discriminate].
    destruct (Z_lt_le_dec y 0); [rewrite inside_false in Hin by lia; discriminate|].
    destruct (Z_lt_le_dec y (Z.of_nat (height a)));
      [|rewrite inside_false in Hin by lia; discriminate].
    lia.
  - intros [Hx Hy]. now apply inside_true.
Qed.

Ltac decide_inside :=
  repeat match goal with
    | |- context [inside ?a ?x ?y] =>
        first [ rewrite (inside_true a x y) by (simpl; lia)
              | rewrite (inside_false a x y) by (simpl; lia) ]
    end.

(** ** Normaliser: the crop window *)

Lemma clamp_crop_bounds (crop new : Z) :
  (OUTPUT_SIZE_PX <= new -> 0 <= clamp_crop crop new <= new - OUTPUT_SIZE_PX)
  /\ (new < OUTPUT_SIZE_PX -> clamp_crop crop new = 0).
Proof. unfold clamp_crop, OUTPUT_SIZE_PX. lia. Qed.

Lemma slice_bound_window (n : nat) (c : Z) :
  let c' := clamp_crop c (Z.of_nat n) in
  slice_bound n c' = c'
  /\ slice_bound n (c' + OUTPUT_SIZE_PX) - c'
     = Z.min OUTPUT_SIZE_PX (Z.of_nat n - c').
Proof.
  unfold clamp_crop, slice_bound, OUTPUT_SIZE_PX.
  destruct (Z.ltb_spec (Z.max 0 (Z.min c (Z.of_nat n - 600))) 0); [lia|].
  destruct (Z.ltb_spec (Z.max 0 (Z.min c (Z.of_nat n - 600)) + 600) 0); lia.
Qed.

(** C3: whatever the resized image and the crop offsets computed from the
    scale, after the clamping the offsets satisfy [0 <= crop_top <= new_h -
    600] when [new_h >= 600] and [crop_top = 0] when [new_h < 600], and the
    same for [crop_left] against [new_w]; the returned image is 600 by 600,
    shows the resized image from the clamped offsets on, and is white where
    the resized image ends: the shortfall is at the right and at the
    bottom, the content is top-left aligned. *)
Theorem crop_clamped_and_padded
    (scaled : rgb_image) (new_w new_h crop_top crop_left : Z) :
  new_h = Z.of_nat (height scaled) ->
  new_w = Z.of_nat (width scaled) ->
  let top := clamp_crop crop_top new_h in
  let left := clamp_crop crop_left new_w in
  let out := crop_to_output scaled new_w new_h crop_top crop_left in
  (OUTPUT_SIZE_PX <= new_h -> 0 <= top <= new_h - OUTPUT_SIZE_PX)
  /\ (new_h < OUTPUT_SIZE_PX -> top = 0)
  /\ (OUTPUT_SIZE_PX <= new_w -> 0 <= left <= new_w - OUTPUT_SIZE_PX)
  /\ (new_w < OUTPUT_SIZE_PX -> left = 0)
  /\ height out = 600%nat /\ width out = 600%nat
  /\ forall x y, 0 <= x < 600 -> 0 <= y < 600 ->
       pixel out x y
       = if (left + x <? new_w) && (top + y <? new_h)
         then pixel scaled (left + x) (top + y) else WHITE.
Proof.
  intros Hh Hw top left out.
  destruct (clamp_crop_bounds crop_top new_h) as [Ht1 Ht2].
  destruct (clamp_crop_bounds crop_left new_w) as [Hl1 Hl2].
  split; [exact Ht1|]. split; [exact Ht2|].
  split; [exact Hl1|]. split; [exact Hl2|].
  split; [reflexivity|]. split; [reflexivity|].
  intros x y Hx Hy.
  destruct (slice_bound_window (height scaled) crop_top) as [Hrs Hrl].
  destruct (slice_bound_window (width scaled) crop_left) as [Hcs Hcl].
  rewrite <- Hh in Hrs, Hrl. rewrite <- Hw in Hcs, Hcl.
  fold top in Hrs, Hrl, Ht1, Ht2. fold left in Hcs, Hcl, Hl1, Hl2.
  subst out. unfold crop_to_output. fold top. fold left.
  set (cropped := slice2 scaled top (top + OUTPUT_SIZE_PX) left (left + OUTPUT_SIZE_PX)).
  assert (Hch : Z.of_nat (height cropped) = Z.min 600 (new_h - top)).
  { unfold cropped, slice2. cbn [height]. rewrite Hrs.
    unfold OUTPUT_SIZE_PX in *. lia. }
  assert (Hcw : Z.of_nat (width cropped) = Z.min 600 (new_w - left)).
  { unfold cropped, slice2. cbn [width]. rewrite Hcs.
    unfold OUTPUT_SIZE_PX in *. lia. }
  assert (Hcp : pixel cropped x y = pixel scaled (left + x) (top + y)).
  { unfold cropped, slice2. cbn [pixel]. rewrite Hrs, Hcs. reflexivity. }
  unfold OUTPUT_SIZE_PX in *.
  assert (Htop : 0 <= top) by (unfold top, clamp_crop, OUTPUT_SIZE_PX; lia).
  assert (Hleft : 0 <= left) by (unfold left, clamp_crop, OUTPUT_SIZE_PX; lia).
  unfold paste. cbn [pixel fst snd]. rewrite !Z.sub_0_r.
  destruct ((Z.of_nat (height cropped) <? 600) || (Z.of_nat (width cropped) <? 600))
    eqn:Hpad.
  - rewrite (inside_true (pad_white cropped) x y)
      by (unfold pad_white, OUTPUT_SIZE_PX; simpl; lia).
    unfold pad_white. cbn [pixel].
    destruct (Z.ltb_spec (left + x) new_w); destruct (Z.ltb_spec (top + y) new_h);
      cbn [andb].
    + rewrite inside_true by lia. exact Hcp.
    + rewrite inside_false by lia. reflexivity.
    + rewrite inside_false by lia. reflexivity.
    + rewrite inside_false by lia. reflexivity.
  - apply orb_false_elim in Hpad. destruct Hpad as [Hp1 Hp2].
    apply Z.ltb_ge in Hp1, Hp2.
    rewrite inside_true by lia.
    destruct (Z.ltb_spec (left + x) new_w); [|lia].
    destruct (Z.ltb_spec (top + y) new_h); [|lia].
    exact Hcp.
Qed.

Lemma crop_clamped_and_padded_witness :
  let scaled := Sample.photo 382 700 in
  let top := clamp_crop 900 700 in
  let left := clamp_crop (-109) 382 in
  let out := crop_to_output scaled 382 700 900 (-109) in
  (OUTPUT_SIZE_PX <= 700 -> 0 <= top <= 700 - OUTPUT_SIZE_PX)
  /\ (700 < OUTPUT_SIZE_PX -> top = 0)
  /\ (OUTPUT_SIZE_PX <= 382 -> 0 <= left <= 382 - OUTPUT_SIZE_PX)
  /\ (382 < OUTPUT_SIZE_PX -> left = 0)
  /\ height out = 600%nat /\ width out = 600%nat
  /\ forall x y, 0 <= x < 600 -> 0 <= y < 600 ->
       pixel out x y
       = if (left + x <? 382) && (top + y <? 700)
         then pixel scaled (left + x) (top + y) else WHITE.
Proof.
  apply (crop_clamped_and_padded (Sample.photo 382 700) 382 700 900 (-109));
    reflexivity.
Defined.

Section Normaliser.
Context `{Libraries}.

(** What [process_photo] returns is the crop window of a resized image. *)
Lemma process_photo_output (picture : Picture) (im : rgb_image) (msg : string) :
  process_photo picture = Ok (Some im, msg) ->
  exists scaled new_w new_h crop_top crop_left,
    cv2_resize (composite_on_white picture) new_w new_h = Ok scaled
    /\ new_h = Z.of_nat (height scaled) /\ new_w = Z.of_nat (width scaled)
    /\ im = crop_to_output scaled new_w new_h crop_top crop_left.
Proof.
  unfold process_photo.
  destruct (detect_face_landmarks (composite_on_white picture)) as [[|l ls]|];
    try discriminate.
  intros Hp.
  repeat (let a := fresh "a" in let Ha := fresh "Ha" in
          apply bind_Ok_inv in Hp; destruct Hp as (a & Ha & Hp)).
  rsimpl_in Hp. injection Hp as <- <-.
  match goal with
  | Hr : cv2_resize _ ?w ?h = Ok ?s |- _ =>
      exists s, w, h; do 2 eexists; split; [exact Hr|];
      unfold cv2_resize in Hr;
      destruct (_ || _) eqn:Hor in Hr; [discriminate|];
      injection Hr as <-; cbn [height width];
      repeat (apply orb_false_elim in Hor; destruct Hor as [Hor ?]);
      repeat match goal with Hc : (_ <=? _) = false |- _ => apply Z.leb_gt in Hc end;
      split; [lia|]; split; [lia|reflexivity]
  end.
Qed.

Lemma process_photo_size (picture : Picture) (im : rgb_image) (msg : string) :
  process_photo picture = Ok (Some im, msg) ->
  height im = 600%nat /\ width im = 600%nat.
Proof.
  intros Hp.
  destruct (process_photo_output _ _ _ Hp)
    as (scaled & new_w & new_h & crop_top & crop_left & _ & _ & _ & ->).
  split; reflexivity.
Qed.

End Normaliser.

(** ** Sheet compositor *)

(** Each pixel of the sheet shows the tile pasted last over it, which is
    the tile of the cell the pixel lies in, as soon as a tile spans a cell. *)
Lemma sheet_pixel (tl : rgb_image) (x y : Z) :
  600 <= Z.of_nat (width tl) -> 600 <= Z.of_nat (height tl) ->
  0 <= x < 1200 -> 0 <= y < 1800 ->
  pixel (fold_left (fun canvas pos => paste canvas tl pos) positions
           (solid 1200 1800 WHITE)) x y
  = pixel tl (x - fst (cell_origin x y)) (y - snd (cell_origin x y)).
Proof.
  intros Hw Hh Hx Hy.
  unfold positions, cell_origin. cbn [fold_left paste pixel fst snd].
  destruct (Z.ltb_spec x 600); destruct (Z.ltb_spec y 600);
    try destruct (Z.ltb_spec y 1200); try lia;
    decide_inside; reflexivity.
Qed.

Lemma cell_origin_of_position (pos : Z * Z) (x y : Z) :
  In pos positions -> 0 <= x < 600 -> 0 <= y < 600 ->
  cell_origin (fst pos + x) (snd pos + y) = pos.
Proof.
  unfold positions, cell_origin. cbn [In].
  intros Hpos Hx Hy.
  repeat (destruct Hpos as [<-|Hpos]; [|]); try contradiction; cbn [fst snd];
    repeat match goal with
      | |- context [?a <? ?b] => destruct (Z.ltb_spec a b); try lia
      end; reflexivity.
Qed.

Lemma cell_origin_position (x y : Z) : In (cell_origin x y) positions.
Proof.
  unfold cell_origin, positions.
  destruct (x <? 600); destruct (y <? 600); destruct (y <? 1200);
    cbn [In]; tauto.
Qed.

Section Sheet.
Context `{Libraries}.

Lemma Image_resize_same (image : rgb_image) :
  width image = 600%nat -> height image = 600%nat ->
  Image_resize image 600 600 = image.
Proof.
  intros Hw Hh. unfold Image_resize. rewrite Hw, Hh. reflexivity.
Qed.

(** C8: without a border the compositor returns a 1200 by 1800 canvas on
    which a 600 by 600 tile appears pixel for pixel at each of the six
    offsets (0,0), (600,0), (0,600), (600,600), (0,1200), (600,1200); every
    pixel of the canvas lies in one of these copies, and a pixel outside of
    all of them would be white. *)
Theorem sheet_without_border (image : rgb_image) (border_thickness : Z) :
  width image = 600%nat -> height image = 600%nat ->
  exists canvas,
    create_4x6_image image false border_thickness = Ok canvas
    /\ width canvas = 1200%nat /\ height canvas = 1800%nat
    /\ (forall pos x y,
          In pos positions -> 0 <= x < 600 -> 0 <= y < 600 ->
          pixel canvas (fst pos + x) (snd pos + y) = pixel image x y)
    /\ (forall x y,
          inside canvas x y = true ->
          exists pos, In pos positions /\ covers image pos x y = true)
    /\ (forall x y,
          inside canvas x y = true ->
          (forall pos, In pos positions -> covers image pos x y = false) ->
          pixel canvas x y = WHITE).
Proof.
  intros Hw Hh.
  assert (Hcover : forall x y, 0 <= x < 1200 -> 0 <= y < 1800 ->
            covers image (cell_origin x y) x y = true).
  { intros x y Hx Hy. unfold covers, cell_origin. cbn [fst snd].
    apply inside_true; rewrite ?Hw, ?Hh;
      destruct (Z.ltb_spec x 600); destruct (Z.ltb_spec y 600);
      try destruct (Z.ltb_spec y 1200); lia. }
  eexists. split.
  { unfold create_4x6_image, tile. rewrite (Image_resize_same image Hw Hh).
    reflexivity. }
  split; [reflexivity|]. split; [reflexivity|].
  split; [|split].
  - intros pos x y Hpos Hx Hy.
    rewrite sheet_pixel.
    + rewrite (cell_origin_of_position pos x y Hpos Hx Hy). f_equal; lia.
    + rewrite Hw. lia.
    + rewrite Hh. lia.
    + unfold positions in Hpos. cbn [In] in Hpos.
      repeat (destruct Hpos as [<-|Hpos]; [cbn [fst]; lia|]). contradiction.
    + unfold positions in Hpos. cbn [In] in Hpos.
      repeat (destruct Hpos as [<-|Hpos]; [cbn [snd]; lia|]). contradiction.
  - intros x y Hin. apply inside_iff in Hin. cbn [width height solid] in Hin.
    exists (cell_origin x y). split; [apply cell_origin_position|].
    apply Hcover; simpl in Hin; lia.
  - intros x y Hin Hnone. apply inside_iff in Hin. simpl in Hin.
    specialize (Hcover x y ltac:(lia) ltac:(lia)).
    rewrite (Hnone (cell_origin x y) (cell_origin_position x y)) in Hcover.
    discriminate.
Qed.

(** C5, as the code has it: with a border of thickness [t >= 0] the 600 by
    600 tile is pasted at offset [(t, t)] onto a black canvas of side
    [600 + 2t], and this inflated tile is pasted at the same six positions
    that are used without a border. The footprints of two neighbouring
    tiles therefore have [2t] columns (side by side) or [2t] rows (one
    above the other) in common, not [t], and the tile pasted later wins:
    every cell of the sheet shows the top-left 600 by 600 pixels of the
    inflated tile. *)
Theorem sheet_with_border (image : rgb_image) (t : Z) :
  width image = 600%nat -> height image = 600%nat -> 0 <= t ->
  exists bordered canvas,
    tile image true t = Ok bordered
    /\ Z.of_nat (width bordered) = 600 + 2 * t
    /\ Z.of_nat (height bordered) = 600 + 2 * t
    /\ (forall x y, 0 <= x < 600 + 2 * t -> 0 <= y < 600 + 2 * t ->
          pixel bordered x y
          = if (t <=? x) && (x <? t + 600) && (t <=? y) && (y <? t + 600)
            then pixel image (x - t) (y - t) else BLACK)
    /\ create_4x6_image image true t = Ok canvas
    /\ canvas = fold_left (fun canvas pos => paste canvas bordered pos) positions
                  (solid 1200 1800 WHITE)
    /\ create_4x6_image image false t
       = Ok (fold_left (fun canvas pos => paste canvas image pos) positions
               (solid 1200 1800 WHITE))
    /\ width canvas = 1200%nat /\ height canvas = 1800%nat
    /\ (forall x y, 0 <= x < 1200 -> 0 <= y < 1800 ->
          pixel canvas x y
          = pixel bordered (x - fst (cell_origin x y)) (y - snd (cell_origin x y)))
    /\ shared_columns bordered 0 600 = 2 * t
    /\ shared_rows bordered 0 600 = 2 * t
    /\ shared_rows bordered 600 1200 = 2 * t
    /\ (forall x y,
          covers bordered (0, 0) x y && covers bordered (600, 0) x y = true
          <-> 600 <= x < 600 + 2 * t /\ 0 <= y < 600 + 2 * t).
Proof.
  intros Hw Hh Ht.
  assert (Hnew : Image_new (600 + 2 * t) (600 + 2 * t) BLACK
                 = Ok (solid (Z.to_nat (600 + 2 * t)) (Z.to_nat (600 + 2 * t)) BLACK)).
  { unfold Image_new.
    destruct (Z.ltb_spec (600 + 2 * t) 0); [lia|]. reflexivity. }
  set (bordered := paste (solid (Z.to_nat (600 + 2 * t)) (Z.to_nat (600 + 2 * t)) BLACK)
                     image (t, t)).
  assert (Htile : tile image true t = Ok bordered).
  { unfold tile. rewrite (Image_resize_same image Hw Hh), Hnew. reflexivity. }
  assert (Hbw : Z.of_nat (width bordered) = 600 + 2 * t) by (simpl; lia).
  assert (Hbh : Z.of_nat (height bordered) = 600 + 2 * t) by (simpl; lia).
  exists bordered. eexists.
  split; [exact Htile|]. split; [exact Hbw|]. split; [exact Hbh|].
  split.
  { intros x y Hx Hy. unfold bordered, paste. cbn [pixel fst snd].
    destruct (Z.leb_spec t x); destruct (Z.ltb_spec x (t + 600));
      destruct (Z.leb_spec t y); destruct (Z.ltb_spec y (t + 600)); cbn [andb];
      first [ rewrite inside_true by (rewrite ?Hw, ?Hh; lia); reflexivity
            | rewrite inside_false by (rewrite ?Hw, ?Hh; lia); reflexivity ]. }
  split.
  { unfold create_4x6_image. rewrite Htile. reflexivity. }
  split; [reflexivity|].
  split.
  { unfold create_4x6_image, tile. rewrite (Image_resize_same image Hw Hh).
    reflexivity. }
  split; [reflexivity|]. split; [reflexivity|].
  split.
  { intros x y Hx Hy. apply sheet_pixel; lia. }
  unfold shared_columns, shared_rows. rewrite Hbw, Hbh.
  split; [lia|]. split; [lia|]. split; [lia|].
  intros x y. rewrite andb_true_iff. unfold covers. rewrite !inside_iff.
  cbn [fst snd]. rewrite Hbw, Hbh. lia.
Qed.

End Sheet.

Lemma sheet_without_border_witness :
  exists canvas,
    @create_4x6_image Sample.blind Sample.gradient_tile false 5 = Ok canvas
    /\ width canvas = 1200%nat /\ height canvas = 1800%nat
    /\ (forall pos x y,
          In pos positions -> 0 <= x < 600 -> 0 <= y < 600 ->
          pixel canvas (fst pos + x) (snd pos + y) = pixel Sample.gradient_tile x y)
    /\ (forall x y,
          inside canvas x y = true ->
          exists pos, In pos positions /\ covers Sample.gradient_tile pos x y = true)
    /\ (forall x y,
          inside canvas x y = true ->
          (forall pos, In pos positions -> covers Sample.gradient_tile pos x y = false) ->
          pixel canvas x y = WHITE).
Proof.
  apply (@sheet_without_border Sample.blind Sample.gradient_tile 5); reflexivity.
Defined.

Lemma sheet_with_border_witness :
  exists bordered canvas,
    @tile Sample.blind Sample.gradient_tile true 5 = Ok bordered
    /\ Z.of_nat (width bordered) = 600 + 2 * 5
    /\ Z.of_nat (height bordered) = 600 + 2 * 5
    /\ (forall x y, 0 <= x < 600 + 2 * 5 -> 0 <= y < 600 + 2 * 5 ->
          pixel bordered x y
          = if (5 <=? x) && (x <? 5 + 600) && (5 <=? y) && (y <? 5 + 600)
            then pixel Sample.gradient_tile (x - 5) (y - 5) else BLACK)
    /\ @create_4x6_image Sample.blind Sample.gradient_tile true 5 = Ok canvas
    /\ canvas = fold_left (fun canvas pos => paste canvas bordered pos) positions
                  (solid 1200 1800 WHITE)
    /\ @create_4x6_image Sample.blind Sample.gradient_tile false 5
       = Ok (fold_left (fun canvas pos => paste canvas Sample.gradient_tile pos) positions
               (solid 1200 1800 WHITE))
    /\ width canvas = 1200%nat /\ height canvas = 1800%nat
    /\ (forall x y, 0 <= x < 1200 -> 0 <= y < 1800 ->
          pixel canvas x y
          = pixel bordered (x - fst (cell_origin x y)) (y - snd (cell_origin x y)))
    /\ shared_columns bordered 0 600 = 2 * 5
    /\ shared_rows bordered 0 600 = 2 * 5
    /\ shared_rows bordered 600 1200 = 2 * 5
    /\ (forall x y,
          covers bordered (0, 0) x y && covers bordered (600, 0) x y = true
          <-> 600 <= x < 600 + 2 * 5 /\ 0 <= y < 600 + 2 * 5).
Proof.
  apply (@sheet_with_border Sample.blind Sample.gradient_tile 5);
    [reflexivity|reflexivity|lia].
Defined.

(** C5, as stated, fails: with a border of 5 pixels the inflated tiles
    pasted at (0,0) and (600,0) share 10 columns, not 5; the pixel
    (607, 100), seven columns past the seam, is written by both pastes, and
    the sheet shows there the tile pasted at (600,0). *)
Lemma border_overlap_is_not_t :
  exists bordered canvas,
    @tile Sample.blind Sample.gradient_tile true 5 = Ok bordered
    /\ @create_4x6_image Sample.blind Sample.gradient_tile true 5 = Ok canvas
    /\ shared_columns bordered 0 600 = 10
    /\ shared_columns bordered 0 600 <> 5
    /\ covers bordered (0, 0) 607 100 = true
    /\ covers bordered (600, 0) 607 100 = true
    /\ pixel canvas 607 100 = pixel Sample.gradient_tile 2 95.
Proof.
  do 2 eexists.
  split; [reflexivity|]. split; [reflexivity|].
  split; [reflexivity|]. split; [discriminate|].
  split; [reflexivity|]. split; [reflexivity|].
  vm_compute. reflexivity.
Qed.

(** ** Image objects and the store *)

Lemma io_bind_run {A B} (m : io A) (f : A -> io B) (σ : gmap loc rgb_image) :
  (m ≫= f) σ
  = match m σ with
    | (Ok a, σ') => f a σ'
    | (Raise e, σ') => (Raise e, σ')
    end.
Proof. reflexivity. Qed.

Lemma touches_only_bind {A B} (r : loc) (m : io A) (f : A -> io B) :
  touches_only r m -> (forall a, touches_only r (f a)) ->
  touches_only r (m ≫= f).
Proof.
  intros Hm Hf σ l Hl. rewrite io_bind_run.
  specialize (Hm σ l Hl).
  destruct (m σ) as [[a|e] σ']; simpl in Hm.
  - rewrite (Hf a σ' l Hl). exact Hm.
  - exact Hm.
Qed.

Lemma touches_only_lift {A} (r : loc) (x : result A) : touches_only r (lift x).
Proof. intros σ l _. reflexivity. Qed.

Lemma touches_only_ret {A} (r : loc) (a : A) : touches_only r (mret a).
Proof. intros σ l _. reflexivity. Qed.

Lemma touches_only_modify (r : loc) (f : rgb_image -> rgb_image) :
  touches_only r (modify r f).
Proof.
  intros σ l Hl. unfold modify.
  destruct (σ !! r); simpl; [|reflexivity].
  apply lookup_insert_ne. congruence.
Qed.

Lemma returns_bind {A B} (v : B) (m : io A) (f : A -> io B) :
  (forall a, returns v (f a)) -> returns v (m ≫= f).
Proof.
  intros Hf σ b. rewrite io_bind_run.
  destruct (m σ) as [[a|e] σ']; simpl.
  - apply Hf.
  - discriminate.
Qed.

Lemma returns_ret {A} (v : A) : returns v (mret (M := io) v).
Proof. intros σ a [= <-]. reflexivity. Qed.

Lemma io_bind_Ok_inv {A B} (m : io A) (f : A -> io B)
    (σ σ' : gmap loc rgb_image) (b : B) :
  (m ≫= f) σ = (Ok b, σ') ->
  exists a σ1, m σ = (Ok a, σ1) /\ f a σ1 = (Ok b, σ').
Proof.
  rewrite io_bind_run.
  destruct (m σ) as [[a|e] σ1]; [eauto|discriminate].
Qed.

Lemma lift_Ok_inv {A} (x : result A) (σ σ1 : gmap loc rgb_image) (a : A) :
  lift x σ = (Ok a, σ1) -> x = Ok a /\ σ1 = σ.
Proof. unfold lift. intros [= -> ->]. split; reflexivity. Qed.

Lemma modify_Ok_inv (r : loc) (f : rgb_image -> rgb_image)
    (σ σ1 : gmap loc rgb_image) (u : unit) :
  modify r f σ = (Ok u, σ1) ->
  exists im, σ !! r = Some im /\ σ1 = <[r := f im]> σ.
Proof.
  unfold modify. destruct (σ !! r) as [im|]; [|discriminate].
  intros [= _ <-]. eauto.
Qed.

Section Overlay.
Context `{Libraries}.

Lemma overlay_touches_only (image : loc) (landmarks : landmark_list) (img_h img_w : Z) :
  touches_only image (add_measurement_overlay image landmarks img_h img_w).
Proof.
  unfold add_measurement_overlay.
  repeat first
    [ apply touches_only_bind; [|intros ?]
    | apply touches_only_lift
    | apply touches_only_modify
    | apply touches_only_ret ].
Qed.

Lemma overlay_returns_argument (image : loc) (landmarks : landmark_list) (img_h img_w : Z) :
  returns image (add_measurement_overlay image landmarks img_h img_w).
Proof.
  unfold add_measurement_overlay.
  repeat (apply returns_bind; intros ?).
  apply returns_ret.
Qed.

(** When the overlay returns, the object it was given carries the
    drawing: the two red head lines, the head label, the blue eye line and
    the eye label, drawn in this order over what the object held. *)
Lemma overlay_run (image : loc) (landmarks : landmark_list) (img_h img_w : Z)
    (σ σ' : gmap loc rgb_image) (q : loc) :
  add_measurement_overlay image landmarks img_h img_w σ = (Ok q, σ') ->
  exists im top chin head_h_mm left_eye right_eye eye_from_bottom_mm,
    σ !! image = Some im
    /\ landmark_row landmarks 10 img_h = Ok top
    /\ landmark_row landmarks 152 img_h = Ok chin
    /\ px_to_mm (chin - top) = Ok head_h_mm
    /\ landmark_row landmarks 33 img_h = Ok left_eye
    /\ landmark_row landmarks 263 img_h = Ok right_eye
    /\ px_to_mm (img_h - (left_eye + right_eye) / 2) = Ok eye_from_bottom_mm
    /\ σ' !! image
       = Some
           (ImageDraw_text
              (ImageDraw_hline
                 (ImageDraw_text
                    (ImageDraw_hline
                       (ImageDraw_hline im (img_w / 2 - 60) (img_w / 2 + 60) top RED 2)
                       (img_w / 2 - 60) (img_w / 2 + 60) chin RED 2)
                    (img_w / 2 + 65, (top + chin) / 2)
                    ("Head: " +:+ format_1f head_h_mm +:+ "mm") RED)
                 0 img_w ((left_eye + right_eye) / 2) BLUE 2)
              (img_w - 120, (left_eye + right_eye) / 2 + 5)
              ("Eye from bottom: " +:+ format_1f eye_from_bottom_mm +:+ "mm") BLUE).
Proof.
  unfold add_measurement_overlay. intros Hrun.
  apply io_bind_Ok_inv in Hrun as (top & σa & Htop & Hrun).
  apply lift_Ok_inv in Htop as [Htop ->].
  apply io_bind_Ok_inv in Hrun as (chin & σa & Hchin & Hrun).
  apply lift_Ok_inv in Hchin as [Hchin ->].
  apply io_bind_Ok_inv in Hrun as (u1 & σ1 & Hm1 & Hrun).
  apply modify_Ok_inv in Hm1 as (im & Him & ->).
  apply io_bind_Ok_inv in Hrun as (u2 & σ2 & Hm2 & Hrun).
  apply modify_Ok_inv in Hm2 as (im2 & Him2 & ->).
  rewrite lookup_insert_eq in Him2. injection Him2 as <-.
  apply io_bind_Ok_inv in Hrun as (head_h_mm & σa & Hhead & Hrun).
  apply lift_Ok_inv in Hhead as [Hhead ->].
  apply io_bind_Ok_inv in Hrun as (u3 & σ3 & Hm3 & Hrun).
  apply modify_Ok_inv in Hm3 as (im3 & Him3 & ->).
  rewrite lookup_insert_eq in Him3. injection Him3 as <-.
  apply io_bind_Ok_inv in Hrun as (left_eye & σa & Hleft & Hrun).
  apply lift_Ok_inv in Hleft as [Hleft ->].
  apply io_bind_Ok_inv in Hrun as (right_eye & σa & Hright & Hrun).
  apply lift_Ok_inv in Hright as [Hright ->].
  apply io_bind_Ok_inv in Hrun as (u4 & σ4 & Hm4 & Hrun).
  apply modify_Ok_inv in Hm4 as (im4 & Him4 & ->).
  rewrite lookup_insert_eq in Him4. injection Him4 as <-.
  apply io_bind_Ok_inv in Hrun as (eye_mm & σa & Heye & Hrun).
  apply lift_Ok_inv in Heye as [Heye ->].
  apply io_bind_Ok_inv in Hrun as (u5 & σ5 & Hm5 & Hrun).
  apply modify_Ok_inv in Hm5 as (im5 & Him5 & ->).
  rewrite lookup_insert_eq in Him5. injection Him5 as <-.
  injection Hrun as _ <-.
  exists im, top, chin, head_h_mm, left_eye, right_eye, eye_mm.
  repeat (split; [assumption|]).
  apply lookup_insert_eq.
Qed.

(** The stroke of the top line passes through the middle column of row
    [top], and nothing drawn later gives a pixel its old colour back. *)
Lemma overlay_marks_top (im : rgb_image) (img_w top chin eye_y : Z)
    (p1 p2 : Z * Z) (s1 s2 : string) :
  let drawn :=
    ImageDraw_text
      (ImageDraw_hline
         (ImageDraw_text
            (ImageDraw_hline
               (ImageDraw_hline im (img_w / 2 - 60) (img_w / 2 + 60) top RED 2)
               (img_w / 2 - 60) (img_w / 2 + 60) chin RED 2)
            p1 s1 RED)
         0 img_w eye_y BLUE 2)
      p2 s2 BLUE in
  pixel drawn (img_w / 2) top = RED \/ pixel drawn (img_w / 2) top = BLUE.
Proof.
  cbn zeta. unfold ImageDraw_text, ImageDraw_hline. cbn [pixel].
  match goal with |- (if ?c then _ else _) = _ \/ _ => destruct c end;
    [right; reflexivity|].
  match goal with |- (if ?c then _ else _) = _ \/ _ => destruct c end;
    [right; reflexivity|].
  match goal with |- (if ?c then _ else _) = _ \/ _ => destruct c end;
    [left; reflexivity|].
  match goal with |- (if ?c then _ else _) = _ \/ _ => destruct c end;
    [left; reflexivity|].
  change (2 / 2) with 1. change ((2 - 1) / 2) with 0.
  destruct (Z.leb_spec (Z.min (img_w / 2 - 60) (img_w / 2 + 60)) (img_w / 2)); [|lia].
  destruct (Z.leb_spec (img_w / 2) (Z.max (img_w / 2 - 60) (img_w / 2 + 60))); [|lia].
  destruct (Z.leb_spec (top - 0) top); [|lia].
  destruct (Z.leb_spec top (top + 1)); [|lia].
  left. reflexivity.
Qed.

(** C6, as the code has it: [add_measurement_overlay] draws on the image
    object it is given, not on a copy. It changes no other object, it
    returns the object it was given, and when it returns that object
    carries the guide lines (the middle of the head-top line is red, or
    blue where the eye line or its label runs over it). The page hands it a
    copy of the processed image, so rendering the preview leaves the
    processed image, and every other object that existed, as it was; the
    preview is a new object. *)
Theorem overlay_in_place_on_a_copy :
  (forall (image : loc) (landmarks : landmark_list) (img_h img_w : Z)
          (σ : gmap loc rgb_image),
      (forall l, l <> image ->
         snd (add_measurement_overlay image landmarks img_h img_w σ) !! l = σ !! l)
      /\ (forall q,
            fst (add_measurement_overlay image landmarks img_h img_w σ) = Ok q ->
            q = image
            /\ exists top drawn,
                 landmark_row landmarks 10 img_h = Ok top
                 /\ snd (add_measurement_overlay image landmarks img_h img_w σ) !! image
                    = Some drawn
                 /\ (pixel drawn (img_w / 2) top = RED
                     \/ pixel drawn (img_w / 2) top = BLUE)))
  /\ (forall (processed_img : loc) (σ : gmap loc rgb_image),
        (forall l, l ∈ dom σ -> snd (preview_block processed_img σ) !! l = σ !! l)
        /\ (forall q,
              fst (preview_block processed_img σ) = Ok q ->
              (q ∉ dom σ) /\ q <> processed_img
              /\ is_Some (snd (preview_block processed_img σ) !! q))).
Proof.
  assert (Hoverlay : forall image landmarks img_h img_w σ q,
            fst (add_measurement_overlay image landmarks img_h img_w σ) = Ok q ->
            q = image
            /\ exists top drawn,
                 landmark_row landmarks 10 img_h = Ok top
                 /\ snd (add_measurement_overlay image landmarks img_h img_w σ) !! image
                    = Some drawn
                 /\ (pixel drawn (img_w / 2) top = RED
                     \/ pixel drawn (img_w / 2) top = BLUE)).
  { intros image landmarks img_h img_w σ q Hq.
    split; [apply overlay_returns_argument in Hq; exact Hq|].
    destruct (add_measurement_overlay image landmarks img_h img_w σ)
      as [res σ'] eqn:Hrun.
    simpl in Hq. subst res.
    destruct (overlay_run _ _ _ _ _ _ _ Hrun)
      as (im & top & chin & hm & le & re & em & _ & Htop & _ & _ & _ & _ & _ & Hdrawn).
    exists top. eexists. split; [exact Htop|]. split; [exact Hdrawn|].
    apply overlay_marks_top. }
  split.
  - intros image landmarks img_h img_w σ. split.
    + intros l Hl. apply overlay_touches_only. exact Hl.
    + apply Hoverlay.
  - intros processed_img σ.
    unfold preview_block. rewrite io_bind_run. unfold load.
    destruct (σ !! processed_img) as [np_img|] eqn:Hp.
    2:{ simpl. split; [reflexivity|discriminate]. }
    rewrite io_bind_run. unfold alloc.
    set (r := fresh (dom σ)).
    assert (Hr : r ∉ dom σ) by apply is_fresh.
    assert (Hold : forall l, l ∈ dom σ -> l <> r) by (intros l Hl ->; contradiction).
    assert (Hproc : processed_img ∈ dom σ) by (apply elem_of_dom; eauto).
    set (σ1 := <[r := np_img]> σ).
    assert (Hσ1 : forall l, l ∈ dom σ -> σ1 !! l = σ !! l).
    { intros l Hl. apply lookup_insert_ne. specialize (Hold l Hl). congruence. }
    assert (Hplain : (forall l, l ∈ dom σ -> σ1 !! l = σ !! l)
                     /\ forall q, Ok r = Ok q ->
                          (q ∉ dom σ) /\ q <> processed_img /\ is_Some (σ1 !! q)).
    { split; [exact Hσ1|]. intros q [= <-].
      split; [exact Hr|]. split; [intros ->; contradiction|].
      unfold σ1. rewrite lookup_insert_eq. eauto. }
    destruct (detect_face_landmarks np_img) as [[|l0 ls]|]; try exact Hplain.
    split.
    + intros l Hl. rewrite overlay_touches_only by (apply Hold; exact Hl).
      apply Hσ1. exact Hl.
    + intros q Hq. apply Hoverlay in Hq.
      destruct Hq as [Hq (top & drawn & _ & Hdrawn & _)]. subst q.
      split; [exact Hr|]. split; [intros ->; contradiction|].
      exists drawn. exact Hdrawn.
Qed.

End Overlay.

(** ** Soft warnings

    The mean test compares a double, the correctly rounded quotient of the
    grey sum by the number of pixels, with 220. The lemmas below follow that
    quotient through the division and the rounding of binary64 and show that
    the comparison never differs from the comparison of the exact values. *)

(** The number of binary digits, as [SpecFloat] counts them. *)
Lemma digits2_pos_size (p : positive) : digits2_pos p = Pos.size p.
Proof. induction p; simpl; congruence. Qed.

(** A number between [2^(n-1)] and [2^n] has [n] binary digits. *)
Lemma Zdigits2_eq (m n : Z) : 0 < n -> 2 ^ (n - 1) <= m < 2 ^ n -> Zdigits2 m = n.
Proof.
  intros Hn Hm.
  assert (Hpos : 0 < m) by (pose proof (Z.pow_pos_nonneg 2 (n - 1)); lia).
  destruct m as [|p|p]; try lia.
  cbn [Zdigits2]. rewrite digits2_pos_size.
  assert (Hlog : Z.log2 (Z.pos p) = n - 1).
  { apply Z.log2_unique; [lia|]. replace (Z.succ (n - 1)) with n by lia. exact Hm. }
  destruct p; cbn [Z.log2 Pos.size] in *; try lia.
Qed.

Lemma Zdigits2_bounds (p : positive) :
  0 < Zdigits2 (Zpos p) /\ 2 ^ (Zdigits2 (Zpos p) - 1) <= Zpos p < 2 ^ Zdigits2 (Zpos p).
Proof.
  cbn [Zdigits2]. rewrite digits2_pos_size. split; [lia|].
  pose proof (Z.log2_spec (Zpos p) ltac:(lia)) as Hs.
  assert (Hl : Zpos (Pos.size p) = Z.succ (Z.log2 (Zpos p))).
  { destruct p; cbn [Z.log2 Pos.size]; lia. }
  rewrite Hl. replace (Z.succ (Z.log2 (Z.pos p)) - 1) with (Z.log2 (Z.pos p)) by lia.
  exact Hs.
Qed.

Lemma loc_of_shr_record_of_loc (m : Z) (l : location) :
  loc_of_shr_record (shr_record_of_loc m l) = l.
Proof. destruct l as [|[]]; reflexivity. Qed.

Lemma shr_m_record_of_loc (m : Z) (l : location) : shr_m (shr_record_of_loc m l) = m.
Proof. destruct l as [|[]]; reflexivity. Qed.

(** A mantissa of 53 bits is kept as it is, one of 54 bits loses its last
    bit and the exponent goes up by one. *)
Lemma shr_fexp_53 (m e : Z) (l : location) :
  2 ^ 52 <= m < 2 ^ 53 -> -1074 <= e ->
  shr_fexp prec emax m e l = (shr_record_of_loc m l, e).
Proof.
  intros Hm He. unfold shr_fexp.
  rewrite (Zdigits2_eq m 53) by (simpl; lia).
  replace (fexp prec emax (53 + e) - e) with 0
    by (unfold fexp, emin, prec, emax; lia).
  reflexivity.
Qed.

Lemma shr_fexp_54 (m e : Z) (l : location) :
  2 ^ 53 <= m < 2 ^ 54 -> -1075 <= e ->
  shr_fexp prec emax m e l = (shr_1 (shr_record_of_loc m l), e + 1).
Proof.
  intros Hm He. unfold shr_fexp.
  rewrite (Zdigits2_eq m 54) by (simpl; lia).
  replace (fexp prec emax (54 + e) - e) with 1
    by (unfold fexp, emin, prec, emax; lia).
  reflexivity.
Qed.

Lemma round_nearest_even_bounds (mx : Z) (lx : location) :
  mx <= round_nearest_even mx lx <= mx + 1
  /\ (lx = loc_Exact -> round_nearest_even mx lx = mx).
Proof.
  destruct lx as [|[]]; cbn [round_nearest_even]; try destruct (Z.even mx);
    (split; [lia|]); try reflexivity; discriminate.
Qed.

Lemma shr_1_halves (m : Z) (r s : bool) :
  2 <= m ->
  2 * shr_m (shr_1 (Build_shr_record m r s)) <= m
  <= 2 * shr_m (shr_1 (Build_shr_record m r s)) + 1.
Proof.
  intros Hm. destruct m as [|[p|p|]|]; cbn [shr_1 shr_m]; lia.
Qed.

Lemma leb_emax (e : Z) : e <= 971 -> (e <=? emax - prec) = true.
Proof. intros He. unfold emax, prec. apply Z.leb_le. lia. Qed.

(** Rounding a quotient [q * 2^E] of 53 bits: the mantissa is [q] or
    [q + 1], and [q] when the division was exact. *)
Lemma binary_round_aux_53 (q E : Z) (l : location) :
  2 ^ 52 <= q < 2 ^ 53 -> -1074 <= E <= 970 ->
  exists m e2,
    binary_round_aux prec emax false q E l = S754_finite false m e2
    /\ ((e2 = E /\ q <= Zpos m <= q + 1 /\ (l = loc_Exact -> Zpos m = q)
         /\ Zpos m < 2 ^ 53)
        \/ (e2 = E + 1 /\ Zpos m = 2 ^ 52 /\ q = 2 ^ 53 - 1)).
Proof.
  intros Hq HE. unfold binary_round_aux.
  rewrite shr_fexp_53 by lia.
  rewrite shr_m_record_of_loc, loc_of_shr_record_of_loc.
  destruct (round_nearest_even_bounds q l) as [Hb Hx].
  set (m1 := round_nearest_even q l) in *.
  destruct (Z.lt_ge_cases m1 (2 ^ 53)) as [Hlt|Hge].
  - rewrite shr_fexp_53 by lia. cbn [shr_record_of_loc shr_m].
    destruct m1 as [|p|p]; try lia.
    rewrite leb_emax by lia.
    exists p, E. split; [reflexivity|]. left. repeat split; try lia. exact Hx.
  - assert (Hm1 : m1 = 2 ^ 53) by lia. rewrite Hm1.
    rewrite shr_fexp_54 by lia. cbn [shr_record_of_loc shr_1 shr_m Z.pow Z.pow_pos Pos.iter Z.mul Pos.mul].
    rewrite leb_emax by lia.
    eexists _, (E + 1). split; [reflexivity|]. right. repeat split; lia.
Qed.

(** Rounding a quotient of 54 bits: the mantissa is half of [q], or that
    plus one, at the next exponent. *)
Lemma binary_round_aux_54 (q E : Z) (l : location) :
  2 ^ 53 <= q < 2 ^ 54 -> -1075 <= E <= 969 ->
  exists m e2,
    binary_round_aux prec emax false q E l = S754_finite false m e2
    /\ ((e2 = E + 1 /\ q <= 2 * Zpos m + 1 /\ 2 * Zpos m <= q + 2 /\ Zpos m < 2 ^ 53)
        \/ (e2 = E + 2 /\ Zpos m = 2 ^ 52 /\ 2 ^ 54 - 2 <= q)).
Proof.
  intros Hq HE. unfold binary_round_aux.
  rewrite shr_fexp_54 by lia.
  assert (Hh : 2 * shr_m (shr_1 (shr_record_of_loc q l)) <= q
               <= 2 * shr_m (shr_1 (shr_record_of_loc q l)) + 1).
  { destruct l as [|[]]; cbn [shr_record_of_loc]; apply shr_1_halves; lia. }
  set (mrs := shr_1 (shr_record_of_loc q l)) in *.
  destruct (round_nearest_even_bounds (shr_m mrs) (loc_of_shr_record mrs)) as [Hb _].
  set (m1 := round_nearest_even (shr_m mrs) (loc_of_shr_record mrs)) in *.
  destruct (Z.lt_ge_cases m1 (2 ^ 53)) as [Hlt|Hge].
  - rewrite shr_fexp_53 by lia. cbn [shr_record_of_loc shr_m].
    destruct m1 as [|p|p]; try lia.
    rewrite leb_emax by lia.
    exists p, (E + 1). split; [reflexivity|]. left. repeat split; lia.
  - assert (Hm1 : m1 = 2 ^ 53) by lia. rewrite Hm1.
    rewrite shr_fexp_54 by lia. cbn [shr_record_of_loc shr_1 shr_m Z.pow Z.pow_pos Pos.iter Z.mul Pos.mul].
    rewrite leb_emax by lia.
    eexists _, (E + 1 + 1). split; [reflexivity|]. right. repeat split; lia.
Qed.

(** The integer division behind [p / 48000] for a sum [p] below [2^24]:
    [p] is scaled to 69 bits and divided by 48000, which leaves a quotient
    of 53 or 54 bits. *)
Lemma SFdiv_core_48000 (p : positive) :
  Zpos p < 2 ^ 24 ->
  let d := Zdigits2 (Zpos p) in
  let X := Zpos p * 2 ^ (69 - d) in
  SFdiv_core_binary prec emax (Zpos p) 0 48000 0
  = (X / 48000, d - 69, new_location 48000 (X mod 48000))
  /\ 2 ^ 68 <= X < 2 ^ 69 /\ 1 <= d <= 24.
Proof.
  intros Hp d X.
  destruct (Zdigits2_bounds p) as [Hd0 Hd]. fold d in Hd0, Hd.
  assert (Hd24 : d <= 24).
  { destruct (Z.le_gt_cases d 24) as [|Hgt]; [assumption|].
    assert (2 ^ 24 <= 2 ^ (d - 1)) by (apply Z.pow_le_mono_r; lia). lia. }
  assert (HX : 2 ^ 68 <= X < 2 ^ 69).
  { unfold X.
    assert (H68 : 2 ^ 68 = 2 ^ (d - 1) * 2 ^ (69 - d))
      by (rewrite <- Z.pow_add_r by lia; f_equal; lia).
    assert (H69 : 2 ^ 69 = 2 ^ d * 2 ^ (69 - d))
      by (rewrite <- Z.pow_add_r by lia; f_equal; lia).
    rewrite H68, H69.
    assert (0 < 2 ^ (69 - d)) by (apply Z.pow_pos_nonneg; lia).
    nia. }
  split; [|split; [exact HX|lia]].
  unfold SFdiv_core_binary. fold d.
  change (Zdigits2 48000) with 16.
  replace (Z.min (fexp prec emax (d + 0 - (16 + 0))) (0 - 0)) with (d - 69)
    by (unfold fexp, emin, prec, emax; lia).
  replace (0 - 0 - (d - 69)) with (69 - d) by lia.
  assert (Hs : match 69 - d with
               | Z.pos _ => Z.shiftl (Z.pos p) (69 - d)
               | 0 => Z.pos p
               | Z.neg _ => 0
               end = X).
  { unfold X. rewrite <- Z.shiftl_mul_pow2 by lia.
    destruct (69 - d) eqn:Hk; lia. }
  rewrite Hs.
  unfold Z.div, Z.modulo. destruct (Z.div_eucl X 48000) as [q r]. reflexivity.
Qed.

(** [<] on two positive finite floats *)
Lemma SFltb_finite (m1 m2 : positive) (e1 e2 : Z) :
  SFltb (S754_finite false m1 e1) (S754_finite false m2 e2) = true
  <-> e1 < e2 \/ (e1 = e2 /\ Zpos m1 < Zpos m2).
Proof.
  unfold SFltb, SFcompare.
  destruct (Z.compare_spec e1 e2) as [He|He|He].
  - change (Pos.compare_cont Eq m1 m2) with (Pos.compare m1 m2).
    destruct (Pos.compare_spec m1 m2) as [Hm|Hm|Hm]; split; intros Hx;
      try discriminate; try reflexivity; try lia.
  - split; [intros _; lia|reflexivity].
  - split; [discriminate|lia].
Qed.

Lemma gt_int_220 (f : float) :
  gt_int f 220 = SFltb (S754_finite false 7740561859543040 (-45)) f.
Proof. reflexivity. Qed.

Lemma new_location_48000_exact (r : Z) :
  new_location 48000 r = loc_Exact <-> r = 0.
Proof.
  unfold new_location. change (Z.even 48000) with true. cbv iota.
  unfold new_location_even.
  destruct (Z.eqb_spec r 0); split; intros Hx; try trivial; try discriminate.
  contradiction.
Qed.

(** The mean of 48000 bytes, computed as a double, is above 220 exactly
    when their sum is above [220 * 48000]. *)
Lemma mean_above_220 (a : Z) :
  0 <= a < 2 ^ 24 ->
  gt_int (match int_truediv a 48000 with Ok m => m | Raise _ => S754_nan end) 220 = true
  <-> 220 * 48000 < a.
Proof.
  intros Ha. rewrite gt_int_220.
  destruct a as [|p|p]; try lia.
  { cbn. split; [discriminate|lia]. }
  unfold int_truediv. change (48000 =? 0) with false. cbv iota.
  change (Z.pos p <? 0) with false. change (48000 <? 0) with false.
  change (Z.to_pos (Z.abs (Z.pos p))) with p.
  change (Z.to_pos (Z.abs 48000)) with 48000%positive.
  unfold SFdiv.
  destruct (SFdiv_core_48000 p (proj2 Ha)) as (Hcore & HX & Hd).
  cbv zeta in Hcore, HX. rewrite Hcore. cbn [xorb].
  set (d := Zdigits2 (Z.pos p)) in *.
  set (X := Z.pos p * 2 ^ (69 - d)) in *.
  pose proof (Z.div_mod X 48000 ltac:(lia)) as Hdm.
  pose proof (Z.mod_pos_bound X 48000 ltac:(lia)) as Hr.
  pose proof (new_location_48000_exact (X mod 48000)) as Hex.
  set (q := X / 48000) in *. set (r := X mod 48000) in *.
  set (l := new_location 48000 r) in *.
  assert (HX24 : d = 24 -> X = Z.pos p * 2 ^ 45).
  { intros Hd24. unfold X. rewrite Hd24. reflexivity. }
  assert (Hp23 : d <= 23 -> Z.pos p < 2 ^ 23).
  { intros Hd23. destruct (Zdigits2_bounds p) as [_ [_ Hup]]. fold d in Hup.
    assert (2 ^ d <= 2 ^ 23) by (apply Z.pow_le_mono_r; lia). lia. }
  clearbody X q r l d.
  destruct (Z.lt_ge_cases q (2 ^ 53)) as [Hq|Hq].
  - destruct (binary_round_aux_53 q (d - 69) l ltac:(lia) ltac:(lia))
      as (m & e2 & -> & Hcase).
    cbn [is_infinity]. rewrite SFltb_finite. clear Hcore.
    destruct (Z.le_gt_cases d 23) as [Hd23|Hd24].
    + specialize (Hp23 Hd23). clear Hex HX24.
      destruct Hcase as [(-> & _)|(-> & Hm & _)]; lia.
    + specialize (HX24 ltac:(lia)).
      destruct Hcase as [(-> & Hm & Hexact & _)|(-> & Hm & Hq')]; [|lia].
      assert (Hd24' : d = 24) by lia. subst d.
      destruct (Z.eq_dec r 0) as [Hr0|Hr0].
      * specialize (Hexact (proj2 Hex Hr0)). clear Hex. lia.
      * clear Hex Hexact. lia.
  - destruct (binary_round_aux_54 q (d - 69) l ltac:(lia) ltac:(lia))
      as (m & e2 & -> & Hcase).
    cbn [is_infinity]. rewrite SFltb_finite. clear Hcore Hex.
    destruct (Z.le_gt_cases d 23) as [Hd23|Hd24].
    + specialize (Hp23 Hd23). clear HX24.
      destruct Hcase as [(-> & Hm1 & Hm2 & _)|(-> & Hm & Hq')]; lia.
    + specialize (HX24 ltac:(lia)).
      destruct Hcase as [(-> & _)|(-> & _)]; lia.
Qed.

Lemma gt_int_60 (f : float) :
  gt_int f 60 = SFltb (S754_finite false 8444249301319680 (-47)) f.
Proof. reflexivity. Qed.

(** On a double, [f > 60] as the program evaluates it is the comparison of
    the values. *)
Lemma gt_60_exceeds (f : float) :
  valid_binary prec emax f = true -> gt_int f 60 = true <-> exceeds f 60.
Proof.
  intros Hv. rewrite gt_int_60. destruct f as [s|s| |s m e].
  - cbn. split; [discriminate|lia].
  - destruct s; cbn; split; congruence.
  - cbn. split; [discriminate|tauto].
  - destruct s.
    + cbn [exceeds cond_Zopp]. unfold SFltb, SFcompare. cbv zeta.
      split; [discriminate|].
      destruct (Z.ltb_spec e 0) as [He|He].
      * assert (0 < 2 ^ (- e)) by (apply Z.pow_pos_nonneg; lia). lia.
      * assert (0 < 2 ^ e) by (apply Z.pow_pos_nonneg; lia). nia.
    + rewrite SFltb_finite. cbn [exceeds cond_Zopp]. cbv zeta.
      cbn [valid_binary] in Hv. unfold bounded, canonical_mantissa in Hv.
      apply andb_true_iff in Hv as [Hc _]. apply Z.eqb_eq in Hc.
      destruct (Zdigits2_bounds m) as [Hd0 Hd]. cbn [Zdigits2] in Hd0, Hd.
      set (D := Z.pos (digits2_pos m)) in *.
      unfold fexp, emin, prec, emax in Hc.
      assert (HD : D <= 53) by lia.
      assert (Hup : Z.pos m < 2 ^ 53).
      { assert (2 ^ D <= 2 ^ 53) by (apply Z.pow_le_mono_r; lia). lia. }
      destruct (Z.ltb_spec e 0) as [He|He].
      * destruct (Z.lt_trichotomy e (-47)) as [Hlt|[Heq|Hgt]].
        -- assert (2 ^ 48 <= 2 ^ (- e)) by (apply Z.pow_le_mono_r; lia). lia.
        -- subst e. change (2 ^ (- -47)) with (2 ^ 47). lia.
        -- assert (HD53 : D = 53) by lia. rewrite HD53 in Hd.
           assert (2 ^ (- e) <= 2 ^ 46) by (apply Z.pow_le_mono_r; lia).
           change (2 ^ (53 - 1)) with (2 ^ 52) in Hd. lia.
      * assert (HD53 : D = 53) by lia. rewrite HD53 in Hd.
        change (2 ^ (53 - 1)) with (2 ^ 52) in Hd.
        assert (1 <= 2 ^ e) by (pose proof (Z.pow_pos_nonneg 2 e); lia).
        split; [intros _; nia|intros _; lia].
Qed.

(** The sum of a raster whose values lie between [lo] and [hi]. *)
Lemma row_sum_bounds (f : nat -> Z) (lo hi : Z) (xs : list nat) (acc : Z) :
  (forall x, In x xs -> lo <= f x <= hi) ->
  acc + lo * Z.of_nat (length xs)
  <= fold_right (fun x acc => f x + acc) acc xs
  <= acc + hi * Z.of_nat (length xs).
Proof.
  induction xs as [|x xs IH]; intros Hf; cbn [fold_right length].
  - lia.
  - pose proof (Hf x (or_introl eq_refl)) as Hx.
    specialize (IH (fun x' Hx' => Hf x' (or_intror Hx'))). lia.
Qed.

Lemma raster_sum_bounds (a : raster Z) (lo hi : Z) :
  (forall x y, 0 <= x < Z.of_nat (width a) -> 0 <= y < Z.of_nat (height a) ->
               lo <= pixel a x y <= hi) ->
  lo * np_size a <= raster_sum a <= hi * np_size a.
Proof.
  intros Hpx. unfold raster_sum, np_size.
  assert (Hrows : forall ys,
            (forall y, In y ys -> (y < height a)%nat) ->
            lo * (Z.of_nat (length ys) * Z.of_nat (width a))
            <= fold_right
                 (fun y acc =>
                    fold_right (fun x acc => pixel a (Z.of_nat x) (Z.of_nat y) + acc)
                               acc (seq 0 (width a)))
                 0 ys
            <= hi * (Z.of_nat (length ys) * Z.of_nat (width a))).
  { induction ys as [|y ys IH]; intros Hys; cbn [fold_right length].
    - lia.
    - specialize (IH (fun y' Hy' => Hys y' (or_intror Hy'))).
      pose proof (Hys y (or_introl eq_refl)) as Hy.
      match goal with
      | |- _ <= fold_right ?g ?acc ?xs <= _ =>
          pose proof (row_sum_bounds (fun x => pixel a (Z.of_nat x) (Z.of_nat y))
                        lo hi xs acc) as Hrow
      end.
      rewrite length_seq in Hrow.
      assert (Hin : forall x, In x (seq 0 (width a)) ->
                lo <= pixel a (Z.of_nat x) (Z.of_nat y) <= hi).
      { intros x Hx. apply in_seq in Hx. apply Hpx; lia. }
      specialize (Hrow Hin). lia. }
  specialize (Hrows (seq 0 (height a))).
  rewrite length_seq in Hrows. apply Hrows.
  intros y Hy. apply in_seq in Hy. lia.
Qed.

Section Warnings.
Context `{Libraries}.

(** C10: on a 600 by 600 image whose grey values are bytes [check_warnings]
    changes no object and returns at most two warnings, in a fixed order:
    the attire warning exactly when the mean of the grey values of the
    bottom 80 rows (rows 520 to 599, 48000 values) exceeds 220, that is when
    their sum exceeds 220 * 48000; the contrast warning exactly when the
    standard deviation of the whole grey image, the double numpy returns
    for it, has a value above 60. So a bottom strip that is brighter than
    220 everywhere draws the attire warning, and one that is nowhere
    brighter than 220 does not. *)
Theorem warnings_from_grey_statistics
    (pil_img : loc) (σ : gmap loc rgb_image) (im : rgb_image) :
  σ !! pil_img = Some im ->
  height im = 600%nat -> width im = 600%nat ->
  let gray := cvtColor im in
  let bottom := mkRaster 80 600 (fun x y => pixel gray x (520 + y)) in
  (forall x y, 0 <= x < 600 -> 520 <= y < 600 -> 0 <= pixel gray x y <= 255) ->
  valid_binary prec emax (np_std gray) = true ->
  exists warnings,
    check_warnings pil_img σ = (Ok warnings, σ)
    /\ (In ATTIRE_WARNING warnings <-> 220 * (80 * 600) < raster_sum bottom)
    /\ (In CONTRAST_WARNING warnings <-> exceeds (np_std gray) 60)
    /\ (warnings = [] \/ warnings = [ATTIRE_WARNING] \/ warnings = [CONTRAST_WARNING]
        \/ warnings = [ATTIRE_WARNING; CONTRAST_WARNING])
    /\ ((forall x y, 0 <= x < 600 -> 520 <= y < 600 -> 220 < pixel gray x y) ->
        In ATTIRE_WARNING warnings)
    /\ ((forall x y, 0 <= x < 600 -> 520 <= y < 600 -> pixel gray x y <= 220) ->
        ~ In ATTIRE_WARNING warnings).
Proof.
  intros Hload Hh Hw gray bottom Hbytes Hvalid.
  assert (Hroi : rows_from gray (-80) = bottom).
  { unfold rows_from, bottom, gray, cvtColor. cbn [height width pixel].
    rewrite Hh, Hw. reflexivity. }
  assert (Hne : ATTIRE_WARNING <> CONTRAST_WARNING) by discriminate.
  assert (Hstrip : forall lo hi,
            (forall x y, 0 <= x < 600 -> 520 <= y < 600 -> lo <= pixel gray x y <= hi) ->
            lo * 48000 <= raster_sum bottom <= hi * 48000).
  { intros lo hi Hpx. apply (raster_sum_bounds bottom lo hi).
    cbn [height width pixel bottom]. intros x y Hx Hy. apply Hpx; lia. }
  assert (Hsum : 0 <= raster_sum bottom < 2 ^ 24).
  { specialize (Hstrip 0 255 Hbytes). change (2 ^ 24) with 16777216. lia. }
  assert (Hmean : gt_int (np_mean bottom) 220 = true
                  <-> 220 * (80 * 600) < raster_sum bottom).
  { unfold np_mean, np_size. cbn [height width bottom].
    change (Z.of_nat 80 * Z.of_nat 600) with 48000.
    change (220 * (80 * 600)) with (220 * 48000).
    apply mean_above_220. exact Hsum. }
  pose proof (gt_60_exceeds (np_std gray) Hvalid) as Hstd.
  eexists. split.
  { unfold check_warnings. rewrite io_bind_run. unfold load.
    match goal with
    | |- context [match ?t with Some _ => _ | None => _ end] =>
        replace t with (Some im) by (symmetry; exact Hload)
    end.
    rewrite io_bind_run. unfold lift, cv2_cvtColor. rewrite Hh, Hw.
    cbn [Nat.eqb orb]. fold gray. rewrite Hroi. reflexivity. }
  match goal with |- (In _ ?ws <-> _) /\ _ => set (warnings := ws) end.
  assert (Hattire : In ATTIRE_WARNING warnings
                    <-> 220 * (80 * 600) < raster_sum bottom).
  { rewrite <- Hmean. unfold warnings.
    destruct (gt_int (np_mean bottom) 220); destruct (gt_int (np_std gray) 60);
      cbn [app In]; split; try tauto; try discriminate;
      intros [Heq|[]]; congruence. }
  split; [exact Hattire|].
  split.
  { rewrite <- Hstd. unfold warnings.
    destruct (gt_int (np_mean bottom) 220); destruct (gt_int (np_std gray) 60);
      cbn [app In]; split; try tauto; try discriminate;
      intros [Heq|[]]; congruence. }
  split.
  { unfold warnings.
    destruct (gt_int (np_mean bottom) 220); destruct (gt_int (np_std gray) 60);
      cbn [app]; tauto. }
  split.
  - intros Hbright. apply Hattire.
    assert (Hpx : forall x y, 0 <= x < 600 -> 520 <= y < 600 ->
              221 <= pixel gray x y <= 255).
    { intros x y Hx Hy. specialize (Hbright x y Hx Hy).
      specialize (Hbytes x y Hx Hy). lia. }
    specialize (Hstrip 221 255 Hpx). lia.
  - intros Hdark Hin. apply Hattire in Hin.
    assert (Hpx : forall x y, 0 <= x < 600 -> 520 <= y < 600 ->
              0 <= pixel gray x y <= 220).
    { intros x y Hx Hy. specialize (Hdark x y Hx Hy).
      specialize (Hbytes x y Hx Hy). lia. }
    specialize (Hstrip 0 220 Hpx). lia.
Qed.

End Warnings.

(** ** The program on the sample inputs *)

Lemma no_face_exactly_without_landmarks_witness :
  @process_photo Sample.blind (Sample.photo 300 400) = Ok (None, NO_FACE_MESSAGE).
Proof.
  apply (proj1 (proj2 (@no_face_exactly_without_landmarks Sample.blind
                         (Sample.photo 300 400)))).
  reflexivity.
Defined.

Lemma process_photo_synthetic :
  exists im,
    @process_photo (Sample.sees Sample.synthetic) (Sample.photo 1000 1000)
    = Ok (Some im, ""%string)
    /\ height im = 600%nat /\ width im = 600%nat
    /\ pixel im 0 0 = mkRGB 0 0 7 /\ pixel im 381 381 = mkRGB 229 229 7
    /\ pixel im 382 0 = WHITE /\ pixel im 0 382 = WHITE.
Proof.
  eexists. split; [vm_compute; reflexivity|].
  repeat split; vm_compute; reflexivity.
Qed.

Lemma overlay_in_place_on_a_copy_witness :
  snd (@preview_block (Sample.sees Sample.portrait) 1%positive Sample.shelf) !! 1%positive
  = Sample.shelf !! 1%positive.
Proof.
  apply (proj1 (proj2 (@overlay_in_place_on_a_copy (Sample.sees Sample.portrait))
                  1%positive Sample.shelf)).
  apply elem_of_dom. exists Sample.white_tile. reflexivity.
Defined.

(** C6, as stated, fails: on a white 600 by 600 image object and a face
    whose forehead lies on row 150, the overlay returns the very object it
    was given, and that object is no longer what it was: its pixel
    (300, 150) has turned from white to red. *)
Lemma overlay_mutates_its_argument :
  let run :=
    @add_measurement_overlay Sample.blind 1%positive Sample.portrait 600 600
      Sample.shelf in
  fst run = Ok 1%positive
  /\ Sample.shelf !! 1%positive = Some Sample.white_tile
  /\ pixel Sample.white_tile 300 150 = WHITE
  /\ (exists drawn, snd run !! 1%positive = Some drawn /\ pixel drawn 300 150 = RED)
  /\ snd run !! 1%positive <> Sample.shelf !! 1%positive.
Proof.
  cbv zeta.
  assert (Hdrawn : exists drawn,
            snd (@add_measurement_overlay Sample.blind 1%positive Sample.portrait
                   600 600 Sample.shelf) !! 1%positive = Some drawn
            /\ pixel drawn 300 150 = RED).
  { eexists. split; vm_compute; reflexivity. }
  assert (Hold : Sample.shelf !! 1%positive = Some Sample.white_tile) by reflexivity.
  split; [vm_compute; reflexivity|].
  split; [exact Hold|]. split; [reflexivity|]. split; [exact Hdrawn|].
  destruct Hdrawn as (drawn & Hd & Hpx). intros Heq.
  pose proof (eq_trans (eq_sym Hd) (eq_trans Heq Hold)) as Hsame.
  injection Hsame as ->. vm_compute in Hpx. discriminate Hpx.
Qed.

Lemma warnings_from_grey_statistics_witness :
  let gray := @cvtColor Sample.uniform Sample.white_tile in
  let bottom := mkRaster 80 600 (fun x y => pixel gray x (520 + y)) in
  exists warnings,
    @check_warnings Sample.uniform 1%positive Sample.shelf = (Ok warnings, Sample.shelf)
    /\ (In ATTIRE_WARNING warnings <-> 220 * (80 * 600) < raster_sum bottom)
    /\ (In CONTRAST_WARNING warnings
        <-> exceeds (@np_std Sample.uniform gray) 60)
    /\ (warnings = [] \/ warnings = [ATTIRE_WARNING] \/ warnings = [CONTRAST_WARNING]
        \/ warnings = [ATTIRE_WARNING; CONTRAST_WARNING])
    /\ ((forall x y, 0 <= x < 600 -> 520 <= y < 600 -> 220 < pixel gray x y) ->
        In ATTIRE_WARNING warnings)
    /\ ((forall x y, 0 <= x < 600 -> 520 <= y < 600 -> pixel gray x y <= 220) ->
        ~ In ATTIRE_WARNING warnings).
Proof.
  apply (@warnings_from_grey_statistics Sample.uniform 1%positive Sample.shelf
           Sample.white_tile); try reflexivity.
  intros x y _ _. change (0 <= 255 <= 255). lia.
Defined.

(** A white image draws the attire warning and no other. *)
Lemma check_warnings_white_tile :
  @check_warnings Sample.uniform 1%positive Sample.shelf
  = (Ok [ATTIRE_WARNING], Sample.shelf).
Proof. vm_compute. reflexivity. Qed.

(** * Further properties of the program *)

(** ** Converters *)

Lemma round_trip_exact_checked :
  forallb (fun n => round_trip_exact (Z.of_nat n)) (seq 0 601) = true.
Proof. vm_compute. reflexivity. Qed.

(** X1: on the calibrated output space, [0 <= px <= 600], converting a
    pixel count to millimetres and back gives the very same pixel count. *)
Theorem round_trip_is_identity (px : Z) :
  0 <= px <= OUTPUT_SIZE_PX -> round_trip px = Ok px.
Proof.
  unfold OUTPUT_SIZE_PX. intros Hpx.
  pose proof round_trip_exact_checked as Hall.
  rewrite forallb_forall in Hall.
  specialize (Hall (Z.to_nat px)).
  rewrite Z2Nat.id in Hall by lia.
  assert (Hin : In (Z.to_nat px) (seq 0 601)) by (apply in_seq; lia).
  specialize (Hall Hin). unfold round_trip_exact in Hall.
  destruct (round_trip px) as [r|e]; [|discriminate].
  apply Z.eqb_eq in Hall. congruence.
Qed.

Lemma round_trip_is_identity_witness : round_trip 413 = Ok 413.
Proof. apply (round_trip_is_identity 413). unfold OUTPUT_SIZE_PX. lia. Defined.

Lemma binary_round_aux_opp (s : bool) (m e : Z) (l : location) :
  binary_round_aux prec emax (negb s) m e l
  = SFopp (binary_round_aux prec emax s m e l).
Proof.
  unfold binary_round_aux.
  destruct (shr_fexp prec emax m e l) as [mrs' e'].
  destruct (shr_fexp prec emax _ e' loc_Exact) as [mrs'' e''].
  destruct (shr_m mrs''); try reflexivity.
  destruct (e'' <=? emax - prec); reflexivity.
Qed.

Lemma is_infinity_opp (f : float) : is_infinity (SFopp f) = is_infinity f.
Proof. destruct f; reflexivity. Qed.

Lemma int_truediv_opp (a b : Z) (q : float) :
  a <> 0 -> int_truediv a b = Ok q -> int_truediv (- a) b = Ok (SFopp q).
Proof.
  intros Ha. unfold int_truediv.
  destruct (b =? 0); [discriminate|].
  assert (Hdiv : forall (sa : bool) (pa : positive),
            SFdiv prec emax (S754_finite (negb sa) pa 0)
              (S754_finite (b <? 0) (Z.to_pos (Z.abs b)) 0)
            = SFopp (SFdiv prec emax (S754_finite sa pa 0)
                       (S754_finite (b <? 0) (Z.to_pos (Z.abs b)) 0))).
  { intros sa pa. cbn [SFdiv].
    destruct (SFdiv_core_binary prec emax _ _ _ _) as [[mz ez] lz].
    rewrite <- binary_round_aux_opp. f_equal.
    destruct sa; destruct (b <? 0); reflexivity. }
  destruct a as [|pa|pa]; [congruence| |].
  - change (- Z.pos pa) with (Z.neg pa).
    change (Z.neg pa <? 0) with (negb (Z.pos pa <? 0)).
    change (Z.to_pos (Z.abs (Z.neg pa))) with (Z.to_pos (Z.abs (Z.pos pa))).
    rewrite Hdiv, is_infinity_opp.
    destruct (is_infinity _); [discriminate|]. intros [= <-]. reflexivity.
  - change (- Z.neg pa) with (Z.pos pa).
    change (Z.pos pa <? 0) with (negb (Z.neg pa <? 0)).
    change (Z.to_pos (Z.abs (Z.pos pa))) with (Z.to_pos (Z.abs (Z.neg pa))).
    rewrite Hdiv, is_infinity_opp.
    destruct (is_infinity _); [discriminate|]. intros [= <-]. reflexivity.
Qed.

Lemma mul_opp_l (q d : float) : mul (SFopp q) d = SFopp (mul q d).
Proof.
  destruct q as [s|s| |s m e]; destruct d as [s'|s'| |s' m' e'];
    try reflexivity;
    try (destruct s; destruct s'; reflexivity).
  unfold mul. cbn [SFopp SFmul].
  rewrite <- binary_round_aux_opp. f_equal.
  destruct s; destruct s'; reflexivity.
Qed.

(** X2: [px_to_mm] is odd: a negative pixel distance gives the negated
    millimetre value of the positive one, bit for bit. *)
Theorem px_to_mm_odd (px : Z) (mm : float) :
  px <> 0 -> px_to_mm px = Ok mm -> px_to_mm (- px) = Ok (SFopp mm).
Proof.
  intros Hpx. unfold px_to_mm, mul_int.
  destruct (int_truediv px OUTPUT_SIZE_PX) as [q|] eqn:Hq; rsimpl; [|discriminate].
  rewrite (int_truediv_opp px OUTPUT_SIZE_PX q Hpx Hq). rsimpl.
  destruct (of_int 51) as [d|]; rsimpl; [|discriminate].
  intros [= <-]. rewrite mul_opp_l. reflexivity.
Qed.

Lemma px_to_mm_odd_witness :
  px_to_mm (- 306) = Ok (SFopp (literal 2601 100)).
Proof.
  apply (px_to_mm_odd 306 (literal 2601 100)); [lia|vm_compute; reflexivity].
Defined.

(** ** Geometry extractor: what it needs *)

Lemma py_int_Ok_finite (f : float) (z : Z) : py_int f = Ok z -> is_finite f = true.
Proof. destruct f; simpl; intros Hf; try discriminate; reflexivity. Qed.

Lemma mul_finite (a b : float) :
  is_finite (mul a b) = true -> is_finite a = true /\ is_finite b = true.
Proof.
  destruct a as [s|s| |s m e]; destruct b as [s'|s'| |s' m' e'];
    simpl; intros Hf; try discriminate; split; reflexivity.
Qed.

Lemma add_finite (a b : float) :
  is_finite (add a b) = true -> is_finite a = true /\ is_finite b = true.
Proof.
  destruct a as [s|s| |s m e]; destruct b as [s'|s'| |s' m' e'];
    try (simpl; intros Hf; try discriminate; split; reflexivity).
  - destruct s; destruct s'; simpl; discriminate.
Qed.

Lemma halve_finite (x half : float) :
  num_truediv_int (PyFloat x) 2 = Ok half -> is_finite half = true ->
  is_finite x = true.
Proof.
  unfold num_truediv_int.
  replace (of_int 2) with (Ok (S754_finite false 4503599627370496 (-51)))
    by (vm_compute; reflexivity).
  rsimpl. unfold truediv. cbn [is_zero]. intros [= <-].
  destruct x as [s|s| |s m e]; simpl; intros Hf; try discriminate; reflexivity.
Qed.

Lemma mul_int_Ok_finite (f v : float) (z : Z) :
  mul_int f z = Ok v -> is_finite v = true -> is_finite f = true.
Proof.
  unfold mul_int. destruct (of_int z) as [d|]; rsimpl; [|discriminate].
  intros [= <-] Hf. apply mul_finite in Hf. tauto.
Qed.

Lemma item_Ok (landmarks : landmark_list) (i : nat) (l : Landmark.t) :
  item landmarks i = Ok l -> landmarks !! i = Some l.
Proof. unfold item. destruct (landmarks !! i); [intros [= ->]; reflexivity|discriminate]. Qed.

(** X3: the extractor returns a geometry only when the landmark list has
    the entries 10, 152, 33 and 263 and the coordinates it reads from them
    (the heights of 10 and 152, both coordinates of the eye centres) are
    finite numbers: a NaN or an infinity among them makes it raise. *)
Theorem geometry_needs_finite_landmarks
    (landmarks : landmark_list) (w h : Z) (g : geometry) :
  get_head_and_eye_positions landmarks w h = Ok g ->
  exists l10 l152 l33 l263,
    landmarks !! 10%nat = Some l10 /\ landmarks !! 152%nat = Some l152
    /\ landmarks !! 33%nat = Some l33 /\ landmarks !! 263%nat = Some l263
    /\ is_finite (Landmark.y l10) = true /\ is_finite (Landmark.y l152) = true
    /\ is_finite (Landmark.x l33) = true /\ is_finite (Landmark.y l33) = true
    /\ is_finite (Landmark.x l263) = true /\ is_finite (Landmark.y l263) = true.
Proof.
  unfold get_head_and_eye_positions. intros Hg.
  apply bind_Ok_inv in Hg as (l10 & Hl10 & Hg).
  apply bind_Ok_inv in Hg as (t & Ht & Hg).
  apply bind_Ok_inv in Hg as (top & Htop & Hg).
  apply bind_Ok_inv in Hg as (l152 & Hl152 & Hg).
  apply bind_Ok_inv in Hg as (c & Hc & Hg).
  apply bind_Ok_inv in Hg as (chin & Hchin & Hg).
  apply bind_Ok_inv in Hg as (l33 & Hl33 & Hg).
  apply bind_Ok_inv in Hg as (l263 & Hl263 & Hg).
  apply bind_Ok_inv in Hg as (ey & Hey & Hg).
  apply bind_Ok_inv in Hg as (ey' & Hey' & Hg).
  apply bind_Ok_inv in Hg as (eye & Heye & Hg).
  apply bind_Ok_inv in Hg as (ex & Hex & Hg).
  apply bind_Ok_inv in Hg as (ex' & Hex' & Hg).
  apply bind_Ok_inv in Hg as (cx & Hcx & Hg).
  apply item_Ok in Hl10, Hl152, Hl33, Hl263.
  exists l10, l152, l33, l263.
  repeat (split; [assumption|]).
  apply py_int_Ok_finite in Htop, Hchin, Heye, Hcx.
  pose proof (mul_int_Ok_finite _ _ _ Ht Htop) as Hy10.
  pose proof (mul_int_Ok_finite _ _ _ Hc Hchin) as Hy152.
  pose proof (mul_int_Ok_finite _ _ _ Hey' Heye) as Hhy.
  pose proof (mul_int_Ok_finite _ _ _ Hex' Hcx) as Hhx.
  apply (halve_finite _ _ Hey) in Hhy. apply add_finite in Hhy.
  apply (halve_finite _ _ Hex) in Hhx. apply add_finite in Hhx.
  tauto.
Qed.

Lemma geometry_needs_finite_landmarks_witness :
  exists l10 l152 l33 l263,
    Sample.synthetic !! 10%nat = Some l10 /\ Sample.synthetic !! 152%nat = Some l152
    /\ Sample.synthetic !! 33%nat = Some l33 /\ Sample.synthetic !! 263%nat = Some l263
    /\ is_finite (Landmark.y l10) = true /\ is_finite (Landmark.y l152) = true
    /\ is_finite (Landmark.x l33) = true /\ is_finite (Landmark.y l33) = true
    /\ is_finite (Landmark.x l263) = true /\ is_finite (Landmark.y l263) = true.
Proof.
  apply (geometry_needs_finite_landmarks Sample.synthetic 1000 1000
           (mkGeometry 100 900 300 500 500)).
  vm_compute. reflexivity.
Defined.

Lemma geometry_reads_263 (landmarks : landmark_list) (w h : Z) (g : geometry) :
  get_head_and_eye_positions landmarks w h = Ok g ->
  exists l263, landmarks !! 263%nat = Some l263.
Proof.
  unfold get_head_and_eye_positions. intros Hg.
  do 7 (apply bind_Ok_inv in Hg as (? & _ & Hg)).
  apply bind_Ok_inv in Hg as (l263 & Hl263 & Hg).
  apply item_Ok in Hl263. eauto.
Qed.

(** X4: a landmark list with fewer than 264 entries never yields a
    geometry: the extractor raises, whatever the image size; with at most
    10 entries it is the first lookup that fails, with [IndexError]. *)
Theorem geometry_short_list (landmarks : landmark_list) (w h : Z) :
  (length landmarks < 264)%nat ->
  raises (get_head_and_eye_positions landmarks w h)
  /\ ((length landmarks <= 10)%nat ->
      get_head_and_eye_positions landmarks w h = Raise IndexError).
Proof.
  intros Hlen. split.
  - destruct (get_head_and_eye_positions landmarks w h) as [g|e] eqn:Hg.
    + apply geometry_reads_263 in Hg as [l Hl].
      apply lookup_lt_Some in Hl. lia.
    + exists e. reflexivity.
  - intros Hshort. unfold get_head_and_eye_positions, item.
    destruct (landmarks !! 10%nat) as [l|] eqn:Hl; [|reflexivity].
    apply lookup_lt_Some in Hl. lia.
Qed.

Lemma geometry_short_list_witness :
  raises (get_head_and_eye_positions
            [Landmark.mk (literal 1 2) (literal 1 2)] 640 480)
  /\ ((length [Landmark.mk (literal 1 2) (literal 1 2)] <= 10)%nat ->
      get_head_and_eye_positions [Landmark.mk (literal 1 2) (literal 1 2)] 640 480
      = Raise IndexError).
Proof. apply geometry_short_list. simpl. lia. Defined.

(** ** Overlay: the size of the image *)

Lemma keeps_shape_bind {A B} (r : loc) (m : io A) (f : A -> io B) :
  keeps_shape r m -> (forall a, keeps_shape r (f a)) -> keeps_shape r (m ≫= f).
Proof.
  intros Hm Hf σ im Him. rewrite io_bind_run.
  destruct (Hm σ im Him) as (im1 & H1 & Hh1 & Hw1).
  destruct (m σ) as [[a|e] σ1]; simpl in H1.
  - destruct (Hf a σ1 im1 H1) as (im2 & H2 & Hh2 & Hw2).
    exists im2. split; [exact H2|]. split; congruence.
  - exists im1. simpl. split; [exact H1|]. split; assumption.
Qed.

Lemma keeps_shape_lift {A} (r : loc) (x : result A) : keeps_shape r (lift x).
Proof. intros σ im Him. exists im. simpl. auto. Qed.

Lemma keeps_shape_ret {A} (r : loc) (a : A) : keeps_shape r (mret a).
Proof. intros σ im Him. exists im. simpl. auto. Qed.

Lemma keeps_shape_modify (r : loc) (f : rgb_image -> rgb_image) :
  (forall im, height (f im) = height im /\ width (f im) = width im) ->
  keeps_shape r (modify r f).
Proof.
  intros Hf σ im Him. unfold modify.
  match goal with
  | |- context [match ?t with Some _ => _ | None => _ end] =>
      replace t with (Some im) by (symmetry; exact Him)
  end.
  exists (f im). split; [apply lookup_insert_eq|]. apply Hf.
Qed.

Section OverlayShape.
Context `{Libraries}.

(** X5: the overlay never changes the size of the image it draws on,
    whether it returns or raises half way through the drawing. *)
Theorem overlay_keeps_size (image : loc) (landmarks : landmark_list) (img_h img_w : Z)
    (σ : gmap loc rgb_image) (im : rgb_image) :
  σ !! image = Some im ->
  exists im',
    snd (add_measurement_overlay image landmarks img_h img_w σ) !! image = Some im'
    /\ height im' = height im /\ width im' = width im.
Proof.
  revert σ im. change (keeps_shape image
    (add_measurement_overlay image landmarks img_h img_w)).
  unfold add_measurement_overlay.
  repeat first
    [ apply keeps_shape_bind; [|intros ?]
    | apply keeps_shape_lift
    | apply keeps_shape_modify; intros ?; split; reflexivity
    | apply keeps_shape_ret ].
Qed.

(** ** Photo processing: what is returned *)

Lemma crop_to_output_pixel (scaled : rgb_image) (new_w new_h crop_top crop_left x y : Z) :
  pixel (crop_to_output scaled new_w new_h crop_top crop_left) x y = WHITE
  \/ exists x' y',
       inside scaled x' y' = true
       /\ pixel (crop_to_output scaled new_w new_h crop_top crop_left) x y
          = pixel scaled x' y'.
Proof.
  assert (Hsb : forall n i, 0 <= slice_bound n i <= Z.of_nat n).
  { intros n i. unfold slice_bound. destruct (Z.ltb_spec i 0); lia. }
  unfold crop_to_output.
  set (top := clamp_crop crop_top new_h). set (left := clamp_crop crop_left new_w).
  set (cropped := slice2 scaled top (top + OUTPUT_SIZE_PX) left (left + OUTPUT_SIZE_PX)).
  assert (Hc : forall u v, inside cropped u v = true ->
            exists x' y', inside scaled x' y' = true
                          /\ pixel cropped u v = pixel scaled x' y').
  { intros u v Hin. apply inside_iff in Hin.
    unfold cropped, slice2 in *. cbn [height width pixel] in *.
    pose proof (Hsb (height scaled) top). pose proof (Hsb (width scaled) left).
    pose proof (Hsb (height scaled) (top + OUTPUT_SIZE_PX)).
    pose proof (Hsb (width scaled) (left + OUTPUT_SIZE_PX)).
    eexists _, _. split; [|reflexivity]. apply inside_true; lia. }
  unfold paste. cbn [pixel fst snd]. rewrite !Z.sub_0_r.
  destruct (_ || _).
  - destruct (inside (pad_white cropped) x y); [|left; reflexivity].
    unfold pad_white. cbn [pixel].
    destruct (inside cropped x y) eqn:Hin; [|left; reflexivity].
    right. apply Hc. exact Hin.
  - destruct (inside cropped x y) eqn:Hin; [|left; reflexivity].
    right. apply Hc. exact Hin.
Qed.

(** X6: whenever [process_photo] returns an image, the image is 600 by 600,
    the message with it is empty, and every pixel of it is white or a pixel
    of the picture as [cv2.resize] scaled it: nothing else is ever put into
    the output. *)
Theorem process_photo_returns (picture : Picture) (im : rgb_image) (msg : string) :
  process_photo picture = Ok (Some im, msg) ->
  msg = ""%string
  /\ height im = 600%nat /\ width im = 600%nat
  /\ exists new_w new_h,
       0 < new_w /\ 0 < new_h
       /\ forall x y,
            pixel im x y = WHITE
            \/ exists x' y',
                 0 <= x' < new_w /\ 0 <= y' < new_h
                 /\ pixel im x y
                    = INTER_CUBIC (composite_on_white picture) new_w new_h x' y'.
Proof.
  intros Hp.
  assert (Hmsg : msg = ""%string).
  { unfold process_photo in Hp.
    destruct (detect_face_landmarks (composite_on_white picture)) as [[|l ls]|] eqn:Hd;
      try discriminate.
    assert (Hp' : process_photo picture = Ok (Some im, msg))
      by (unfold process_photo; rewrite Hd; exact Hp).
    apply (process_photo_face picture l ls (Some im) msg Hd Hp'). }
  destruct (process_photo_output picture im msg Hp)
    as (scaled & new_w & new_h & ct & cl & Hr & Hh & Hw & ->).
  split; [exact Hmsg|]. split; [reflexivity|]. split; [reflexivity|].
  unfold cv2_resize in Hr.
  destruct (_ || _) eqn:Hor in Hr; [discriminate|]. injection Hr as <-.
  cbn [height width] in Hh, Hw.
  repeat (apply orb_false_elim in Hor; destruct Hor as [Hor ?]).
  repeat match goal with Hc : (_ <=? _) = false |- _ => apply Z.leb_gt in Hc end.
  exists new_w, new_h. split; [lia|]. split; [lia|].
  intros x y.
  destruct (crop_to_output_pixel
              (mkRaster (Z.to_nat new_h) (Z.to_nat new_w)
                 (INTER_CUBIC (composite_on_white picture) new_w new_h))
              new_w new_h ct cl x y) as [Hwhite|(x' & y' & Hin & Hpx)].
  - left. exact Hwhite.
  - right. exists x', y'. apply inside_iff in Hin. cbn [height width] in Hin.
    split; [lia|]. split; [lia|]. exact Hpx.
Qed.

End OverlayShape.

Lemma overlay_keeps_size_witness :
  exists im',
    snd (@add_measurement_overlay Sample.blind 1%positive Sample.portrait 600 600
           Sample.shelf) !! 1%positive = Some im'
    /\ height im' = height Sample.white_tile /\ width im' = width Sample.white_tile.
Proof.
  apply (@overlay_keeps_size Sample.blind 1%positive Sample.portrait 600 600
           Sample.shelf Sample.white_tile).
  reflexivity.
Defined.

Lemma process_photo_returns_witness :
  exists im,
    @process_photo (Sample.sees Sample.synthetic) (Sample.photo 1000 1000)
    = Ok (Some im, ""%string)
    /\ height im = 600%nat /\ width im = 600%nat.
Proof.
  destruct process_photo_synthetic as (im & Hp & _).
  exists im. split; [exact Hp|].
  destruct (@process_photo_returns (Sample.sees Sample.synthetic)
              (Sample.photo 1000 1000) im ""%string Hp) as (_ & Hh & Hw & _).
  split; [exact Hh|exact Hw].
Defined.

(** ** Soft warnings on an image of any size *)

Section WarningsAnySize.
Context `{Libraries}.

(** X7: on an image of any size (not empty) [check_warnings] returns
    without raising and leaves the store as it was; the attire test looks at
    the last 80 rows, and at the whole image when it has fewer rows than
    that. *)
Theorem warnings_any_size (pil_img : loc) (σ : gmap loc rgb_image) (im : rgb_image) :
  σ !! pil_img = Some im ->
  (0 < height im)%nat -> (0 < width im)%nat ->
  let gray := cvtColor im in
  let first_row := Z.max 0 (Z.of_nat (height im) - 80) in
  let bottom :=
    mkRaster (Nat.min 80 (height im)) (width im)
      (fun x y => pixel gray x (first_row + y)) in
  check_warnings pil_img σ
  = (Ok ((if gt_int (np_mean bottom) 220 then [ATTIRE_WARNING] else [])
         ++ (if gt_int (np_std gray) 60 then [CONTRAST_WARNING] else [])), σ).
Proof.
  intros Hload Hh Hw gray first_row bottom.
  assert (Hroi : rows_from gray (-80) = bottom).
  { unfold rows_from, bottom, first_row, gray, cvtColor, slice_bound.
    cbn [height width pixel]. change (-80 <? 0) with true. cbv iota.
    replace (-80 + Z.of_nat (height im)) with (Z.of_nat (height im) - 80) by lia.
    f_equal. lia. }
  unfold check_warnings. rewrite io_bind_run. unfold load.
  match goal with
  | |- context [match ?t with Some _ => _ | None => _ end] =>
      replace t with (Some im) by (symmetry; exact Hload)
  end.
  rewrite io_bind_run. unfold lift, cv2_cvtColor.
  destruct (height im) as [|h] eqn:Eh; [lia|].
  destruct (width im) as [|w] eqn:Ew; [lia|].
  cbn [Nat.eqb orb]. fold gray. rewrite Hroi.
  destruct (gt_int (np_mean bottom) 220); destruct (gt_int (np_std gray) 60);
    reflexivity.
Qed.

(** X20: on an image without rows or without columns [check_warnings]
    raises the error of OpenCV's colour conversion before it looks at any
    statistic, and leaves the store as it was. *)
Theorem warnings_empty_image (pil_img : loc) (σ : gmap loc rgb_image) (im : rgb_image) :
  σ !! pil_img = Some im ->
  height im = 0%nat \/ width im = 0%nat ->
  check_warnings pil_img σ = (Raise Cv2Error, σ).
Proof.
  intros Hload Hempty.
  unfold check_warnings. rewrite io_bind_run. unfold load.
  match goal with
  | |- context [match ?t with Some _ => _ | None => _ end] =>
      replace t with (Some im) by (symmetry; exact Hload)
  end.
  rewrite io_bind_run. unfold lift, cv2_cvtColor.
  destruct Hempty as [-> | ->]; cbn [Nat.eqb orb]; [reflexivity|].
  rewrite orb_true_r. reflexivity.
Qed.

End WarningsAnySize.

Lemma warnings_any_size_witness :
  let im := Sample.photo 40 30 in
  let σ : gmap loc rgb_image := {[ 1%positive := im ]} in
  let gray := @cvtColor Sample.blind im in
  let first_row := Z.max 0 (Z.of_nat (height im) - 80) in
  let bottom :=
    mkRaster (Nat.min 80 (height im)) (width im)
      (fun x y => pixel gray x (first_row + y)) in
  @check_warnings Sample.blind 1%positive σ
  = (Ok ((if gt_int (np_mean bottom) 220 then [ATTIRE_WARNING] else [])
         ++ (if gt_int (@np_std Sample.blind gray) 60 then [CONTRAST_WARNING] else [])), σ).
Proof.
  apply (@warnings_any_size Sample.blind 1%positive
           {[ 1%positive := Sample.photo 40 30 ]} (Sample.photo 40 30)).
  - reflexivity.
  - simpl. lia.
  - simpl. lia.
Defined.

Lemma warnings_empty_image_witness :
  @check_warnings Sample.blind 1%positive {[ 1%positive := Sample.photo 40 0 ]}
  = (Raise Cv2Error, {[ 1%positive := Sample.photo 40 0 ]}).
Proof.
  apply (@warnings_empty_image Sample.blind 1%positive
           {[ 1%positive := Sample.photo 40 0 ]} (Sample.photo 40 0)).
  - reflexivity.
  - left. reflexivity.
Defined.

(** ** Sheet compositor: creation and content *)

Section SheetMore.
Context `{Libraries}.

Lemma Image_resize_size (image : rgb_image) :
  width (Image_resize image 600 600) = 600%nat
  /\ height (Image_resize image 600 600) = 600%nat.
Proof.
  unfold Image_resize.
  destruct (Z.eqb_spec (Z.of_nat (width image)) 600);
    destruct (Z.eqb_spec (Z.of_nat (height image)) 600);
    cbn [andb width height]; split; try reflexivity; lia.
Qed.

(** X8: on an image that is not empty, the sheet compositor fails only on
    a border so negative that the framed tile would have a negative side
    ([600 + 2t < 0]), and then with [ValueError]; in every other case,
    whatever the size of the input image, it returns a canvas of 1200 by
    1800 pixels. *)
Theorem sheet_creation (image : rgb_image) (add_border : bool) (t : Z) :
  (0 < width image)%nat -> (0 < height image)%nat ->
  (add_border = true /\ 600 + 2 * t < 0 ->
   create_4x6_image image add_border t = Raise ValueError)
  /\ (add_border = false \/ 0 <= 600 + 2 * t ->
      exists canvas,
        create_4x6_image image add_border t = Ok canvas
        /\ width canvas = 1200%nat /\ height canvas = 1800%nat).
Proof.
  intros _ _.
  unfold create_4x6_image, tile, Image_new.
  change ((1200 <? 0) || (1800 <? 0)) with false. cbv iota. rsimpl.
  split.
  - intros [-> Ht].
    destruct (Z.ltb_spec (600 + 2 * t) 0); [|lia]. reflexivity.
  - intros [->|Ht].
    + eexists. split; [reflexivity|]. split; reflexivity.
    + destruct add_border.
      * destruct (Z.ltb_spec (600 + 2 * t) 0); [lia|]. cbn [orb]. rsimpl.
        eexists. split; [reflexivity|]. split; reflexivity.
      * eexists. split; [reflexivity|]. split; reflexivity.
Qed.

(** X9: with a border of thickness [t >= 0], every cell of the sheet shows
    a black band of [t] columns on the left and [t] rows on top and, below
    and right of it, the photo from its top-left corner on: the last [t]
    columns and rows of the photo and the right and bottom frame are never
    visible. *)
Theorem bordered_cell_content (image : rgb_image) (t : Z) :
  width image = 600%nat -> height image = 600%nat -> 0 <= t ->
  exists canvas,
    create_4x6_image image true t = Ok canvas
    /\ forall pos x y,
         In pos positions -> 0 <= x < 600 -> 0 <= y < 600 ->
         pixel canvas (fst pos + x) (snd pos + y)
         = if (t <=? x) && (t <=? y) then pixel image (x - t) (y - t) else BLACK.
Proof.
  intros Hw Hh Ht.
  unfold create_4x6_image, tile, Image_new.
  change ((1200 <? 0) || (1800 <? 0)) with false. cbv iota. rsimpl.
  rewrite (Image_resize_same image Hw Hh).
  destruct (Z.ltb_spec (600 + 2 * t) 0); [lia|]. cbn [orb]. rsimpl.
  eexists. split; [reflexivity|].
  intros pos x y Hpos Hx Hy.
  assert (Hrange : 0 <= fst pos + x < 1200 /\ 0 <= snd pos + y < 1800).
  { unfold positions in Hpos. cbn [In] in Hpos.
    repeat (destruct Hpos as [<-|Hpos]; [cbn [fst snd]; lia|]). contradiction. }
  change (Z.to_nat 1200) with 1200%nat. change (Z.to_nat 1800) with 1800%nat.
  rewrite sheet_pixel by (cbn [width height paste solid]; lia).
  rewrite (cell_origin_of_position pos x y Hpos Hx Hy).
  replace (fst pos + x - fst pos) with x by lia.
  replace (snd pos + y - snd pos) with y by lia.
  unfold paste. cbn [pixel fst snd solid].
  destruct (Z.leb_spec t x); destruct (Z.leb_spec t y); cbn [andb];
    first [ rewrite inside_true by (rewrite ?Hw, ?Hh; lia); reflexivity
          | rewrite inside_false by (rewrite ?Hw, ?Hh; lia); reflexivity ].
Qed.

(** X10: without a border and for an input image of any size (not empty),
    the sheet shows in each of its six cells the image as
    [resize((600, 600))] returned it, which is the image itself when it is
    600 by 600. *)
Theorem sheet_of_any_image (image : rgb_image) (t : Z) :
  (0 < width image)%nat -> (0 < height image)%nat ->
  exists canvas,
    create_4x6_image image false t = Ok canvas
    /\ (forall pos x y,
          In pos positions -> 0 <= x < 600 -> 0 <= y < 600 ->
          pixel canvas (fst pos + x) (snd pos + y)
          = pixel (Image_resize image 600 600) x y)
    /\ (width image = 600%nat -> height image = 600%nat ->
        Image_resize image 600 600 = image).
Proof.
  intros _ _.
  eexists. split; [reflexivity|]. split; [|apply Image_resize_same].
  intros pos x y Hpos Hx Hy.
  destruct (Image_resize_size image) as [Hw Hh].
  assert (Hrange : 0 <= fst pos + x < 1200 /\ 0 <= snd pos + y < 1800).
  { unfold positions in Hpos. cbn [In] in Hpos.
    repeat (destruct Hpos as [<-|Hpos]; [cbn [fst snd]; lia|]). contradiction. }
  change (Z.to_nat 1200) with 1200%nat. change (Z.to_nat 1800) with 1800%nat.
  rewrite sheet_pixel by (rewrite ?Hw, ?Hh; lia).
  rewrite (cell_origin_of_position pos x y Hpos Hx Hy).
  f_equal; lia.
Qed.

End SheetMore.

Lemma sheet_creation_witness :
  @create_4x6_image Sample.blind (Sample.photo 40 30) true (-301) = Raise ValueError.
Proof.
  apply (proj1 (@sheet_creation Sample.blind (Sample.photo 40 30) true (-301)
                  ltac:(simpl; lia) ltac:(simpl; lia))).
  split; [reflexivity|lia].
Defined.

Lemma bordered_cell_content_witness :
  exists canvas,
    @create_4x6_image Sample.blind Sample.gradient_tile true 7 = Ok canvas
    /\ forall pos x y,
         In pos positions -> 0 <= x < 600 -> 0 <= y < 600 ->
         pixel canvas (fst pos + x) (snd pos + y)
         = if (7 <=? x) && (7 <=? y)
           then pixel Sample.gradient_tile (x - 7) (y - 7) else BLACK.
Proof.
  apply (@bordered_cell_content Sample.blind Sample.gradient_tile 7);
    [reflexivity|reflexivity|lia].
Defined.

Lemma sheet_of_any_image_witness :
  exists canvas,
    @create_4x6_image Sample.blind (Sample.photo 40 30) false 5 = Ok canvas
    /\ pixel canvas (600 + 3) (1200 + 4)
       = pixel (@Image_resize Sample.blind (Sample.photo 40 30) 600 600) 3 4.
Proof.
  destruct (@sheet_of_any_image Sample.blind (Sample.photo 40 30) 5
              ltac:(simpl; lia) ltac:(simpl; lia))
    as (canvas & Hc & Hpx & _).
  exists canvas. split; [exact Hc|].
  apply (Hpx (600, 1200) 3 4); [|lia|lia].
  unfold positions. cbn [In]. tauto.
Defined.

(** ** File names *)

Lemma remove_from_length (old : string) (s : string) :
  forall skip, (String.length (remove_from old skip s) <= String.length s)%nat.
Proof.
  induction s as [|c rest IH]; intros skip; cbn [remove_from String.length]; [lia|].
  destruct skip as [|k].
  - destruct (String.prefix old (String c rest)).
    + specialize (IH (String.length old - 1)%nat). lia.
    + cbn [String.length]. specialize (IH 0%nat). lia.
  - specialize (IH k). lia.
Qed.

Lemma remove_all_length (old s : string) :
  (String.length (remove_all old s) <= String.length s)%nat.
Proof.
  unfold remove_all. destruct old; [lia|]. apply remove_from_length.
Qed.

Lemma occurs_cons (old : string) (c : Ascii.ascii) (rest : string) :
  occurs old rest -> occurs old (String c rest).
Proof.
  intros (a & b & ->). exists (String c a), b. reflexivity.
Qed.

Lemma prefix_split (old : string) :
  forall s, String.prefix old s = true -> exists b, s = old +:+ b.
Proof.
  induction old as [|c old IH]; intros s Hp.
  - exists s. reflexivity.
  - destruct s as [|c' rest]; cbn [String.prefix] in Hp; [discriminate|].
    destruct (Ascii.ascii_dec c c') as [<-|]; [|discriminate].
    destruct (IH rest Hp) as (b & ->). exists b. reflexivity.
Qed.

Lemma prefix_occurs (old s : string) : String.prefix old s = true -> occurs old s.
Proof.
  intros Hp. destruct (prefix_split old s Hp) as (b & ->).
  exists EmptyString, b. reflexivity.
Qed.

Lemma remove_from_absent (old : string) :
  forall s, ~ occurs old s -> remove_from old 0 s = s.
Proof.
  induction s as [|c rest IH]; intros Hno; cbn [remove_from]; [reflexivity|].
  destruct (String.prefix old (String c rest)) eqn:Hp.
  - exfalso. apply Hno. apply prefix_occurs. exact Hp.
  - f_equal. apply IH. intros Hocc. apply Hno. apply occurs_cons. exact Hocc.
Qed.

Lemma remove_all_absent (old s : string) : ~ occurs old s -> remove_all old s = s.
Proof.
  intros Hno. unfold remove_all. destruct old; [reflexivity|].
  apply remove_from_absent. exact Hno.
Qed.

(** removing a character leaves none of it, and brings no other in *)
Lemma remove_char_chars (c : Ascii.ascii) (s : string) (x : Ascii.ascii) :
  In x (String.list_ascii_of_string (remove_all (String c EmptyString) s))
  <-> In x (String.list_ascii_of_string s) /\ x <> c.
Proof.
  unfold remove_all.
  induction s as [|c' rest IH].
  - cbn. tauto.
  - cbn [remove_from String.prefix String.length Nat.sub].
    destruct (Ascii.ascii_dec c c') as [<-|Hne].
    + replace (if String.prefix EmptyString rest then true else false) with true
        by (destruct rest; reflexivity).
      assert (Hp : String.prefix EmptyString rest = true) by (destruct rest; reflexivity).
      rewrite ?Hp. cbn [String.list_ascii_of_string In]. rewrite IH.
      split; [intros [? ?]; split; [right|]; assumption|].
      intros [[->|?] ?]; [congruence|tauto].
    + cbn [String.list_ascii_of_string In]. rewrite IH.
      split.
      * intros [->|[? ?]]; [split; [left; reflexivity|congruence]|tauto].
      * intros [[->|?] ?]; [left; reflexivity|right; tauto].
Qed.

Lemma occurs_char (c : Ascii.ascii) (s : string) :
  occurs (String c EmptyString) s -> In c (String.list_ascii_of_string s).
Proof.
  intros (a & b & ->). induction a as [|x a IH]; cbn; [left; reflexivity|right; exact IH].
Qed.

Lemma in_chars_occurs (c : Ascii.ascii) (s : string) :
  In c (String.list_ascii_of_string s) -> occurs (String c EmptyString) s.
Proof.
  induction s as [|x rest IH]; cbn [String.list_ascii_of_string In]; [tauto|].
  intros [->|Hin].
  - exists EmptyString, rest. reflexivity.
  - apply occurs_cons. apply IH. exact Hin.
Qed.

(** X11: whatever the user types as file name, the sanitised name contains
    neither a slash nor a backslash, and is never longer than what was
    typed. *)
Theorem sanitize_no_separator (fname : string) :
  ~ occurs SLASH (sanitize fname)
  /\ ~ occurs BACKSLASH (sanitize fname)
  /\ (String.length (sanitize fname) <= String.length fname)%nat.
Proof.
  unfold sanitize, SLASH, BACKSLASH. split; [|split].
  - intros Hocc. apply occurs_char in Hocc.
    apply remove_char_chars in Hocc as [Hin _].
    apply remove_char_chars in Hin as [_ Hne]. congruence.
  - intros Hocc. apply occurs_char in Hocc.
    apply remove_char_chars in Hocc as [_ Hne]. congruence.
  - etransitivity; [apply remove_all_length|].
    etransitivity; [apply remove_all_length|]. apply remove_all_length.
Qed.

(** X12: a name in which neither two dots in a row, nor a slash, nor a
    backslash occurs is left exactly as it was typed. *)
Theorem sanitize_clean_name (fname : string) :
  ~ occurs DOTDOT fname -> ~ occurs SLASH fname -> ~ occurs BACKSLASH fname ->
  sanitize fname = fname.
Proof.
  intros Hd Hs Hb. unfold sanitize.
  rewrite (remove_all_absent DOTDOT fname Hd).
  rewrite (remove_all_absent SLASH fname Hs).
  apply remove_all_absent. exact Hb.
Qed.

Lemma remove_from_keeps (old : string) (c : Ascii.ascii) (rest : string) :
  String.prefix old (String c rest) = false ->
  remove_from old 0 (String c rest) = String c (remove_from old 0 rest).
Proof. intros Hp. cbn [remove_from]. rewrite Hp. reflexivity. Qed.

Lemma remove_from_drops (c : Ascii.ascii) (rest : string) :
  remove_from (String c EmptyString) 0 (String c rest)
  = remove_from (String c EmptyString) 0 rest.
Proof.
  cbn [remove_from String.prefix String.length Nat.sub].
  destruct (Ascii.ascii_dec c c) as [_|Hne]; [|congruence].
  destruct rest; reflexivity.
Qed.

(** X13: the three replacements are made one after the other and only
    once: the dots that the removal of a slash brings together stay. A
    name typed as a dot, a slash, a dot and then [t] comes out as two dots
    and [t], so the sanitised name can still contain two dots in a row. *)
Theorem sanitize_can_leave_dots (t : string) :
  ~ occurs DOTDOT ("." +:+ t) -> ~ occurs SLASH t -> ~ occurs BACKSLASH t ->
  sanitize ("./." +:+ t) = ".." +:+ t
  /\ occurs DOTDOT (sanitize ("./." +:+ t)).
Proof.
  intros Hd Hs Hb.
  assert (Heq : sanitize ("./." +:+ t) = ".." +:+ t).
  { unfold sanitize.
    assert (H1 : remove_all DOTDOT ("./." +:+ t) = "./." +:+ t).
    { unfold remove_all, DOTDOT.
      cbv beta iota delta [String.append] in Hd |- *.
      rewrite remove_from_keeps by (vm_compute; reflexivity).
      rewrite remove_from_keeps by (vm_compute; reflexivity).
      do 2 f_equal. apply (remove_from_absent ".."). exact Hd. }
    rewrite H1.
    assert (H2 : remove_all SLASH ("./." +:+ t) = ".." +:+ t).
    { unfold remove_all, SLASH.
      cbv beta iota delta [String.append].
      rewrite remove_from_keeps by (vm_compute; reflexivity).
      rewrite remove_from_drops.
      rewrite remove_from_keeps by (vm_compute; reflexivity).
      do 2 f_equal. apply (remove_from_absent "/"). exact Hs. }
    rewrite H2. apply remove_all_absent.
    intros Hocc. apply occurs_char in Hocc.
    cbv beta iota delta [String.append] in Hocc.
    cbn [String.list_ascii_of_string In] in Hocc.
    destruct Hocc as [Heq|[Heq|Hin]]; [discriminate Heq|discriminate Heq|].
    apply Hb. apply in_chars_occurs. exact Hin. }
  split; [exact Heq|].
  rewrite Heq. exists EmptyString, t. reflexivity.
Qed.

Lemma prefix_app (old b : string) : String.prefix old (old +:+ b) = true.
Proof.
  induction old as [|c old IH]; cbv beta iota delta [String.append];
    fold String.append; cbn [String.prefix].
  - destruct b; reflexivity.
  - destruct (Ascii.ascii_dec c c) as [_|Hne]; [exact IH|congruence].
Qed.

Lemma occurs_occursb (old s : string) : occurs old s -> occursb old s = true.
Proof.
  intros (a & b & ->). induction a as [|x a IH].
  - change (EmptyString +:+ old +:+ b) with (old +:+ b).
    destruct (old +:+ b) eqn:Hs; cbn [occursb]; rewrite <- ?Hs;
      rewrite prefix_app; reflexivity.
  - change (String x a +:+ old +:+ b) with (String x (a +:+ old +:+ b)).
    cbn [occursb]. rewrite IH. apply orb_true_r.
Qed.

Lemma sanitize_clean_name_witness :
  sanitize "passport_photo.v2" = "passport_photo.v2"%string.
Proof.
  apply (sanitize_clean_name "passport_photo.v2");
    intros Ho; apply occurs_occursb in Ho; vm_compute in Ho; discriminate Ho.
Defined.

Lemma sanitize_can_leave_dots_witness :
  sanitize "./.hidden" = "..hidden"%string /\ occurs DOTDOT (sanitize "./.hidden").
Proof.
  apply (sanitize_can_leave_dots "hidden");
    intros Ho; apply occurs_occursb in Ho; vm_compute in Ho; discriminate Ho.
Defined.

(** ** The page *)

Section PageProperties.
Context `{Libraries}.

Lemma process_photo_message (picture : Picture) (img : option rgb_image) (msg : string) :
  process_photo picture = Ok (img, msg) ->
  msg = ""%string \/ msg = NO_FACE_MESSAGE.
Proof.
  intros Hp.
  destruct (detect_face_landmarks (composite_on_white picture)) as [[|l ls]|] eqn:Hd.
  - unfold process_photo in Hp. rewrite Hd in Hp. injection Hp as _ <-. now right.
  - left. apply (process_photo_face picture l ls img msg Hd Hp).
  - unfold process_photo in Hp. rewrite Hd in Hp. injection Hp as _ <-. now right.
Qed.

(** X14: an upload of more than 10 * 1024 * 1024 bytes is not opened at
    all: the page shows the size message, then the heading of the sheet
    section, and nothing else; no image is processed and no sheet is
    offered. *)
Theorem oversize_upload (u : upload) (w : widgets) :
  10 * 1024 * 1024 < up_size u ->
  upload_block u w fresh_run
  = (Ok tt,
     mkPage [st_error SIZE_MESSAGE; st_markdown "---";
             st_subheader "Create 4x6 Inch Printable Image"] ∅ None).
Proof.
  intros Hsize. unfold upload_block.
  destruct (Z.ltb_spec (10 * 1024 * 1024) (up_size u)) as [_|]; [|lia].
  reflexivity.
Qed.

(** X15: within the size limit, a file that cannot be opened and a picture
    on which [process_photo] raises (a head height of zero, say) end alike:
    the page shows "Invalid image file. ...", after the original picture
    when it could be opened, and offers no sheet. *)
Theorem failure_shows_invalid_image (u : upload) (w : widgets) (e : exn) :
  up_size u <= 10 * 1024 * 1024 ->
  (up_open u = Raise e
   \/ exists picture, up_open u = Ok picture /\ process_photo picture = Raise e) ->
  upload_block u w fresh_run
  = (Ok tt,
     mkPage
       (match up_open u with
        | Ok picture => [st_image (ShownPicture picture) "Original uploaded image"]
        | Raise _ => []
        end
        ++ [st_error INVALID_IMAGE_MESSAGE; st_markdown "---";
            st_subheader "Create 4x6 Inch Printable Image"]) ∅ None).
Proof.
  intros Hsize Hfail. unfold upload_block.
  destruct (Z.ltb_spec (10 * 1024 * 1024) (up_size u)) as [|_]; [lia|].
  destruct Hfail as [Hopen|(picture & Hopen & Hp)].
  - unfold try_except, run_result, mbind, script_bind. rewrite Hopen. reflexivity.
  - unfold try_except, run_result, processing_block, mbind, script_bind, emit.
    rewrite Hopen. cbn [fst snd calls objects processed_img]. unfold run_result.
    rewrite Hp. reflexivity.
Qed.

(** X16: when no face is found, the page shows the original picture and the
    message of [process_photo], and offers neither a preview nor a sheet. *)
Theorem no_face_page (u : upload) (w : widgets) (picture : Picture) :
  up_size u <= 10 * 1024 * 1024 ->
  up_open u = Ok picture ->
  falsy (detect_face_landmarks (composite_on_white picture)) = true ->
  upload_block u w fresh_run
  = (Ok tt,
     mkPage [st_image (ShownPicture picture) "Original uploaded image";
             st_error NO_FACE_MESSAGE; st_markdown "---";
             st_subheader "Create 4x6 Inch Printable Image"] ∅ None).
Proof.
  intros Hsize Hopen Hfalsy.
  assert (Hp : process_photo picture = Ok (None, NO_FACE_MESSAGE)).
  { unfold process_photo.
    destruct (detect_face_landmarks (composite_on_white picture)) as [[|l ls]|];
      [reflexivity|discriminate Hfalsy|reflexivity]. }
  unfold upload_block.
  destruct (Z.ltb_spec (10 * 1024 * 1024) (up_size u)) as [|_]; [lia|].
  unfold try_except, run_result, processing_block, mbind, script_bind, emit.
  rewrite Hopen. cbn [fst snd calls objects processed_img]. unfold run_result.
  rewrite Hp. reflexivity.
Qed.

(** *** What a script can add to the page *)

Lemma adds_only_bind (P : st_call -> Prop) {A B} (m : script A) (f : A -> script B) :
  adds_only P m -> (forall a, (exists s, fst (m s) = Ok a) -> adds_only P (f a)) ->
  adds_only P (script_bind A B f m).
Proof.
  intros Hm Hf s. unfold script_bind.
  destruct (Hm s) as (added1 & Hc1 & HP1).
  destruct (m s) as [[a|e] s1] eqn:Hms; cbn [snd] in Hc1.
  - assert (Hok : exists s0, fst (m s0) = Ok a) by (exists s; rewrite Hms; reflexivity).
    destruct (Hf a Hok s1) as (added2 & Hc2 & HP2).
    exists (added1 ++ added2). split.
    + rewrite Hc2, Hc1. symmetry. apply app_assoc.
    + apply Forall_app. split; assumption.
  - exists added1. split; assumption.
Qed.

Lemma adds_nothing (P : st_call -> Prop) {A} (m : script A) :
  (forall s, calls (snd (m s)) = calls s) -> adds_only P m.
Proof.
  intros Hm s. exists []. rewrite Hm, app_nil_r. split; [reflexivity|constructor].
Qed.

Lemma adds_only_emit (P : st_call -> Prop) (c : st_call) :
  P c -> adds_only P (emit c).
Proof.
  intros Hc s. exists [c]. split; [reflexivity|]. repeat constructor. exact Hc.
Qed.

Lemma adds_only_emit_all (P : st_call -> Prop) (cs : list st_call) :
  Forall P cs -> adds_only P (emit_all cs).
Proof.
  induction 1 as [|c cs Hc Hcs IH]; cbn [emit_all].
  - apply adds_nothing. reflexivity.
  - apply adds_only_bind; [apply adds_only_emit; exact Hc|intros _ _; exact IH].
Qed.

Lemma adds_only_try (P : st_call -> Prop) (body handler : script unit) :
  adds_only P body -> adds_only P handler -> adds_only P (try_except body handler).
Proof.
  intros Hb Hh s. unfold try_except.
  destruct (Hb s) as (added1 & Hc1 & HP1).
  destruct (body s) as [[u|e] s1]; cbn [snd] in Hc1.
  - exists added1. split; assumption.
  - destruct (Hh s1) as (added2 & Hc2 & HP2).
    exists (added1 ++ added2). split.
    + rewrite Hc2, Hc1. symmetry. apply app_assoc.
    + apply Forall_app. split; assumption.
Qed.

Lemma adds_only_try_safe (P : st_call -> Prop) (body handler : script unit) :
  never_raises body -> adds_only P body -> adds_only P (try_except body handler).
Proof.
  intros Hsafe Hb s. unfold try_except.
  destruct (Hb s) as (added1 & Hc1 & HP1).
  destruct (Hsafe s) as [u Hu].
  destruct (body s) as [[u'|e] s1]; cbn [fst snd] in *; [|discriminate].
  exists added1. split; assumption.
Qed.

Lemma try_with_emit_never_raises (body : script unit) (c : st_call) :
  never_raises (try_except body (emit c)).
Proof.
  intros s. unfold try_except.
  destruct (body s) as [[u|e] s1]; [exists u|exists tt]; reflexivity.
Qed.

End PageProperties.

Lemma chars_app (a b : string) :
  String.list_ascii_of_string (a +:+ b)
  = String.list_ascii_of_string a ++ String.list_ascii_of_string b.
Proof.
  induction a as [|x a IH]; cbv beta iota delta [String.append]; fold String.append;
    cbn [String.list_ascii_of_string app]; [reflexivity|].
  f_equal. exact IH.
Qed.

Lemma not_occurs_char_app (c : Ascii.ascii) (a b : string) :
  ~ occurs (String c EmptyString) a -> ~ occurs (String c EmptyString) b ->
  ~ occurs (String c EmptyString) (a +:+ b).
Proof.
  intros Ha Hb Hocc. apply occurs_char in Hocc. rewrite chars_app in Hocc.
  apply in_app_or in Hocc as [Hin|Hin].
  - apply Ha. apply in_chars_occurs. exact Hin.
  - apply Hb. apply in_chars_occurs. exact Hin.
Qed.

Lemma occurs_app_r (old a rest : string) : occurs old a -> occurs old (a +:+ rest).
Proof.
  intros (x & y & ->). exists x, (y +:+ rest).
  induction x as [|c x IH]; cbv beta iota delta [String.append]; fold String.append.
  - induction old as [|d old IHold];
      cbv beta iota delta [String.append]; fold String.append; [reflexivity|].
    f_equal. exact IHold.
  - f_equal. exact IH.
Qed.

Lemma sanitize_free_of (fname : string) :
  ~ occurs SLASH (sanitize fname) /\ ~ occurs BACKSLASH (sanitize fname).
Proof.
  unfold sanitize, SLASH, BACKSLASH. split; intros Hocc; apply occurs_char in Hocc.
  - apply remove_char_chars in Hocc as [Hin _].
    apply remove_char_chars in Hin as [_ Hne]. congruence.
  - apply remove_char_chars in Hocc as [_ Hne]. congruence.
Qed.

Lemma extension_free_of (fmt : image_format) :
  ~ occurs SLASH ("." +:+ extension fmt) /\ ~ occurs BACKSLASH ("." +:+ extension fmt).
Proof.
  split; intros Hocc; apply occurs_occursb in Hocc; destruct fmt;
    vm_compute in Hocc; discriminate Hocc.
Qed.

Section PageCalls.
Context `{Libraries}.

Ltac nothing_added := apply adds_nothing; intros ?; reflexivity.

(** X17: whatever is uploaded and whatever the widgets return, the only
    error messages the page can show are the size message, "Invalid image
    file. ..." and the no-face message of [process_photo]; the message
    "An unexpected error occurred. ..." of the outer handler never appears,
    because the inner handler catches every exception first. *)
Theorem only_three_error_messages (u : upload) (w : widgets) :
  Forall (fun c => forall msg, c = st_error msg ->
            msg = SIZE_MESSAGE \/ msg = INVALID_IMAGE_MESSAGE \/ msg = NO_FACE_MESSAGE)
         (calls (snd (upload_block u w fresh_run)))
  /\ ~ In (st_error UNEXPECTED_MESSAGE) (calls (snd (upload_block u w fresh_run))).
Proof.
  set (P := fun c : st_call => forall msg, c = st_error msg ->
              msg = SIZE_MESSAGE \/ msg = INVALID_IMAGE_MESSAGE \/ msg = NO_FACE_MESSAGE).
  assert (Hfinal : forall processed, adds_only P (final_file_section processed w)).
  { intros processed. unfold final_file_section, mbind.
    apply adds_only_bind; [apply adds_only_emit; intros msg [=]|intros _ _].
    apply adds_only_bind; [apply adds_only_emit; intros msg [=]|intros _ _].
    destruct (w_download w); [|nothing_added].
    apply adds_only_bind; [nothing_added|intros im _].
    apply adds_only_emit. intros msg [=]. }
  assert (Hproc : forall picture, adds_only P (processing_block picture w)).
  { intros picture. unfold processing_block, mbind.
    apply adds_only_bind; [nothing_added|intros [img msg] [s Hr]].
    unfold run_result in Hr. cbn [fst snd] in Hr |- *.
    apply adds_only_bind.
    { destruct img; [|nothing_added].
      apply adds_only_bind; [nothing_added|intros l _]. nothing_added. }
    intros p _.
    apply adds_only_bind; [nothing_added|intros _ _].
    destruct (process_photo_message picture img msg Hr) as [->| ->].
    - apply adds_only_bind; [apply adds_only_emit; intros msg [=]|intros _ _].
      destruct p as [processed|]; [|nothing_added].
      apply adds_only_bind; [nothing_added|intros preview_img _].
      apply adds_only_bind; [nothing_added|intros preview _].
      apply adds_only_bind; [apply adds_only_emit; intros msg [=]|intros _ _].
      apply adds_only_bind; [nothing_added|intros warnings _].
      apply adds_only_bind; [|intros _ _; apply Hfinal].
      apply adds_only_emit_all.
      induction warnings as [|x warnings IHw]; cbn [map]; constructor;
        [intros msg [=]|exact IHw].
    - apply adds_only_emit. intros msg [= <-]. right. right. reflexivity. }
  assert (Hsheet : adds_only P (sheet_section w)).
  { unfold sheet_section, mbind.
    apply adds_only_bind; [nothing_added|intros [processed|] _]; [|nothing_added].
    apply adds_only_bind; [nothing_added|intros im _].
    apply adds_only_bind; [nothing_added|intros preview_4x6 _].
    apply adds_only_bind; [apply adds_only_emit; intros msg [=]|intros _ _].
    apply adds_only_bind; [apply adds_only_emit; intros msg [=]|intros _ _].
    destruct (w_download_4x6 w); [|nothing_added].
    apply adds_only_emit. intros msg [=]. }
  assert (Hinner : adds_only P
            (try_except
               (script_bind _ _
                  (fun orig_image =>
                     script_bind _ _ (fun _ => processing_block orig_image w)
                       (emit (st_image (ShownPicture orig_image)
                                "Original uploaded image")))
                  (run_result (up_open u)))
               (emit (st_error INVALID_IMAGE_MESSAGE)))).
  { apply adds_only_try.
    - apply adds_only_bind; [nothing_added|intros orig _].
      apply adds_only_bind; [apply adds_only_emit; intros msg [=]|intros _ _].
      apply Hproc.
    - apply adds_only_emit. intros msg [= <-]. right. left. reflexivity. }
  assert (Hall : adds_only P (upload_block u w)).
  { unfold upload_block, mbind.
    apply adds_only_bind.
    - apply adds_only_try_safe.
      + destruct (10 * 1024 * 1024 <? up_size u).
        * intros s. exists tt. reflexivity.
        * apply try_with_emit_never_raises.
      + destruct (10 * 1024 * 1024 <? up_size u).
        * apply adds_only_emit. intros msg [= <-]. left. reflexivity.
        * exact Hinner.
    - intros _ _.
      apply adds_only_bind; [apply adds_only_emit; intros msg [=]|intros _ _].
      apply adds_only_bind; [apply adds_only_emit; intros msg [=]|intros _ _].
      exact Hsheet. }
  destruct (Hall fresh_run) as (added & Hcalls & HP).
  cbn [calls fresh_run app] in Hcalls. rewrite Hcalls.
  split; [exact HP|].
  intros Hin. rewrite List.Forall_forall in HP.
  destruct (HP _ Hin UNEXPECTED_MESSAGE eq_refl) as [Heq|[Heq|Heq]]; discriminate Heq.
Qed.

(** X18: with the processed image in hand, the section that saves the
    final file puts the rule and the heading on the page and, when the
    button is clicked, offers exactly one download after them: the
    processed image itself, saved in the chosen format with a resolution
    tag of 300 dpi (and quality 95 for a JPEG), under the sanitised name
    followed by [.jpg] or [.png], a name that contains no slash and no
    backslash, with the MIME type [image/jpg] or [image/png]. Without a
    click nothing is offered. No object changes. *)
Theorem final_download_name
    (processed : loc) (w : widgets) (s : page_state) (im : rgb_image) :
  objects s !! processed = Some im ->
  let name := sanitize (w_fname w) +:+ "." +:+ extension (w_fmt w) in
  let data := save im (w_fmt w) in
  final_file_section processed w s
  = (Ok tt,
     mkPage
       (calls s
        ++ [st_markdown "---"; st_write "**Save final file:**"]
        ++ (if w_download w
            then [st_download_button "Click to Download" data name
                    ("image/" +:+ extension (w_fmt w))]
            else []))
       (objects s) (processed_img s))
  /\ ~ occurs SLASH name /\ ~ occurs BACKSLASH name
  /\ enc_image data = im
  /\ enc_format data = w_fmt w
  /\ enc_dpi data = (300, 300)
  /\ enc_quality data = match w_fmt w with JPEG => Some 95 | PNG => None end.
Proof.
  intros Hload name data. split.
  - unfold final_file_section, mbind, script_bind, emit.
    cbn [fst snd calls objects processed_img].
    destruct (w_download w).
    + unfold run_io, load. cbn [fst snd calls objects processed_img].
      match goal with
      | |- context [match ?t with Some _ => _ | None => _ end] =>
          replace t with (Some im) by (symmetry; exact Hload)
      end.
      cbn [fst snd calls objects processed_img]. unfold download_call.
      rewrite <- !app_assoc. reflexivity.
    + unfold mret, script_ret. rewrite <- !app_assoc. reflexivity.
  - destruct (sanitize_free_of (w_fname w)) as [Hs Hb].
    destruct (extension_free_of (w_fmt w)) as [Hes Heb].
    split; [apply not_occurs_char_app; assumption|].
    split; [apply not_occurs_char_app; assumption|].
    unfold data. destruct (w_fmt w); repeat split; reflexivity.
Qed.

(** X19: the download of the 4x6 sheet is offered under the name exactly
    as it was typed, followed by the extension: the name is not sanitised,
    and a slash typed into it is in the file name. *)
Theorem sheet_download_name (w : widgets) (s : page_state)
    (processed : loc) (im sheet : rgb_image) :
  processed_img s = Some processed ->
  objects s !! processed = Some im ->
  create_4x6_image im (w_add_border w)
    (if w_add_border w then w_border_thickness w else 5) = Ok sheet ->
  w_download_4x6 w = true ->
  sheet_section w s
  = (Ok tt,
     mkPage
       (calls s
        ++ [st_image (ShownImage sheet) "4x6 Inch Preview";
            st_write "**Save 4x6 Image:**";
            st_download_button "Click to Download" (save sheet (w_fmt_4x6 w))
              (w_fname_4x6 w +:+ "." +:+ extension (w_fmt_4x6 w))
              ("image/" +:+ extension (w_fmt_4x6 w))])
       (objects s) (processed_img s))
  /\ (occurs SLASH (w_fname_4x6 w) ->
      occurs SLASH (w_fname_4x6 w +:+ "." +:+ extension (w_fmt_4x6 w))).
Proof.
  intros Hp Hload Hsheet Hdl. split; [|apply occurs_app_r].
  unfold sheet_section, mbind, script_bind, read_processed_img.
  rewrite Hp. unfold run_io, load.
  match goal with
  | |- context [match ?t with Some _ => _ | None => _ end] =>
      replace t with (Some im) by (symmetry; exact Hload)
  end.
  cbn [fst snd objects calls processed_img]. unfold run_result.
  rewrite Hsheet, Hdl. unfold emit, download_call.
  cbn [fst snd objects calls processed_img].
  rewrite <- !app_assoc. cbn [app]. rewrite ?Hp. reflexivity.
Qed.

End PageCalls.

(** ** The page on the sample inputs *)

Lemma oversize_upload_witness :
  @upload_block Sample.blind
    (@mkUpload Sample.blind (11 * 1024 * 1024) (Ok (Sample.photo 40 30)))
    (mkWidgets JPEG "passport_photo" true false 5 PNG "4x6_passport_photo" false)
    (@fresh_run Sample.blind)
  = (Ok tt,
     @mkPage Sample.blind
       [st_error SIZE_MESSAGE; st_markdown "---";
        st_subheader "Create 4x6 Inch Printable Image"] ∅ None).
Proof.
  apply (@oversize_upload Sample.blind). simpl. lia.
Defined.

Lemma failure_shows_invalid_image_witness :
  @upload_block (Sample.sees Sample.flat)
    (@mkUpload (Sample.sees Sample.flat) 2048 (Ok (Sample.photo 1000 1000)))
    (mkWidgets JPEG "passport_photo" true false 5 PNG "4x6_passport_photo" false)
    (@fresh_run (Sample.sees Sample.flat))
  = (Ok tt,
     @mkPage (Sample.sees Sample.flat)
       ([st_image (@ShownPicture (Sample.sees Sample.flat) (Sample.photo 1000 1000))
           "Original uploaded image"]
        ++ [st_error INVALID_IMAGE_MESSAGE; st_markdown "---";
            st_subheader "Create 4x6 Inch Printable Image"]) ∅ None).
Proof.
  apply (@failure_shows_invalid_image (Sample.sees Sample.flat)
           (@mkUpload (Sample.sees Sample.flat) 2048 (Ok (Sample.photo 1000 1000)))
           (mkWidgets JPEG "passport_photo" true false 5 PNG "4x6_passport_photo" false)
           ZeroDivisionError).
  - simpl. lia.
  - right. exists (Sample.photo 1000 1000). split; [reflexivity|].
    vm_compute. reflexivity.
Defined.

Lemma no_face_page_witness :
  @upload_block Sample.blind
    (@mkUpload Sample.blind 2048 (Ok (Sample.photo 40 30)))
    (mkWidgets JPEG "passport_photo" true false 5 PNG "4x6_passport_photo" false)
    (@fresh_run Sample.blind)
  = (Ok tt,
     @mkPage Sample.blind
       [st_image (@ShownPicture Sample.blind (Sample.photo 40 30))
          "Original uploaded image";
        st_error NO_FACE_MESSAGE; st_markdown "---";
        st_subheader "Create 4x6 Inch Printable Image"] ∅ None).
Proof.
  apply (@no_face_page Sample.blind
           (@mkUpload Sample.blind 2048 (Ok (Sample.photo 40 30)))
           (mkWidgets JPEG "passport_photo" true false 5 PNG "4x6_passport_photo" false)
           (Sample.photo 40 30)).
  - simpl. lia.
  - reflexivity.
  - reflexivity.
Defined.

Lemma only_three_error_messages_witness :
  ~ In (@st_error (Sample.sees Sample.flat) UNEXPECTED_MESSAGE)
      (calls (snd (@upload_block (Sample.sees Sample.flat)
                     (@mkUpload (Sample.sees Sample.flat) 2048
                        (Ok (Sample.photo 1000 1000)))
                     (mkWidgets JPEG "passport_photo" true false 5 PNG
                        "4x6_passport_photo" false)
                     (@fresh_run (Sample.sees Sample.flat))))).
Proof.
  apply (proj2 (@only_three_error_messages (Sample.sees Sample.flat)
                  (@mkUpload (Sample.sees Sample.flat) 2048
                     (Ok (Sample.photo 1000 1000)))
                  (mkWidgets JPEG "passport_photo" true false 5 PNG
                     "4x6_passport_photo" false))).
Defined.

Lemma final_download_name_witness :
  let w := mkWidgets JPEG "../etc/photo" true false 5 PNG "4x6_passport_photo" false in
  let s := @mkPage Sample.blind [] Sample.shelf (Some 1%positive) in
  let im := Sample.white_tile in
  let name := sanitize (w_fname w) +:+ "." +:+ extension (w_fmt w) in
  let data := save im (w_fmt w) in
  @final_file_section Sample.blind 1%positive w s
  = (Ok tt,
     @mkPage Sample.blind
       (calls s
        ++ [st_markdown "---"; st_write "**Save final file:**"]
        ++ (if w_download w
            then [st_download_button "Click to Download" data name
                    ("image/" +:+ extension (w_fmt w))]
            else []))
       (objects s) (processed_img s))
  /\ ~ occurs SLASH name /\ ~ occurs BACKSLASH name
  /\ enc_image data = im
  /\ enc_format data = w_fmt w
  /\ enc_dpi data = (300, 300)
  /\ enc_quality data = match w_fmt w with JPEG => Some 95 | PNG => None end.
Proof.
  apply (@final_download_name Sample.blind 1%positive
           (mkWidgets JPEG "../etc/photo" true false 5 PNG "4x6_passport_photo" false)
           (@mkPage Sample.blind [] Sample.shelf (Some 1%positive))
           Sample.white_tile).
  reflexivity.
Defined.

(** The name typed as [../etc/photo] is offered as [etcphoto.jpg]. *)
Lemma final_download_sample_name :
  sanitize "../etc/photo" +:+ "." +:+ extension JPEG = "etcphoto.jpg"%string.
Proof. reflexivity. Qed.

Lemma sheet_download_name_witness :
  let w := mkWidgets JPEG "passport_photo" false false 5 PNG "out/sheet" true in
  let s := @mkPage Sample.blind [] Sample.shelf (Some 1%positive) in
  let sheet :=
    fold_left (fun canvas pos => paste canvas Sample.white_tile pos) positions
      (solid 1200 1800 WHITE) in
  @sheet_section Sample.blind w s
  = (Ok tt,
     @mkPage Sample.blind
       (calls s
        ++ [st_image (ShownImage sheet) "4x6 Inch Preview";
            st_write "**Save 4x6 Image:**";
            st_download_button "Click to Download" (save sheet (w_fmt_4x6 w))
              (w_fname_4x6 w +:+ "." +:+ extension (w_fmt_4x6 w))
              ("image/" +:+ extension (w_fmt_4x6 w))])
       (objects s) (processed_img s))
  /\ (occurs SLASH (w_fname_4x6 w) ->
      occurs SLASH (w_fname_4x6 w +:+ "." +:+ extension (w_fmt_4x6 w))).
Proof.
  apply (@sheet_download_name Sample.blind
           (mkWidgets JPEG "passport_photo" false false 5 PNG "out/sheet" true)
           (@mkPage Sample.blind [] Sample.shelf (Some 1%positive))
           1%positive Sample.white_tile
           (fold_left (fun canvas pos => paste canvas Sample.white_tile pos) positions
              (solid 1200 1800 WHITE)));
    reflexivity.
Defined.
